(** * tiftool: GeoTIFF to 16-bit image conversion

    A shallow embedding of [Tools/tiftool.py] and the properties of its
    numeric core: resize factors, resampled dimensions, the source colour
    step distance and the normalisation to the unsigned 16-bit range.

    Numbers.  The script computes on IEEE doubles and, for a band of an
    integer type, on integers of that type.  Modules [Np], [Tiftool] and
    [Script] model them by exact rationals ([Q]) extended with the three
    special values the division of numpy produces ([PInf], [NInf], [NaN]);
    rounding of the floating-point operations, signed zeros and the width
    of the integer types are not modelled there.  Module [Machine] models
    the two computations whose result depends on them as the machine
    performs them: the product of a dimension by a resize factor, which is
    rounded to a double before it is truncated, and the normalisation of
    an integer band, whose differences wrap around.  Python scalars raise
    on a zero divisor, numpy scalars and arrays return a special value
    instead, and the two are kept apart below. *)

From Stdlib Require Import ZArith QArith Qround Qabs List Bool String Lia Lqa.
From Stdlib Require Import Ascii Qpower.
Import ListNotations.

Local Open Scope Q_scope.

(** ** Python: exceptions and fallible computations *)

Module Py.

Inductive exn : Type :=
| Exception (msg : string)
| ZeroDivisionError
| ValueError
| cv2_error.

Definition result (A : Type) : Type := (exn + A)%type.

Definition ret {A : Type} (a : A) : result A := inr a.
Definition raise {A : Type} (e : exn) : result A := inl e.

Definition bind {A B : Type} (m : result A) (k : A -> result B) : result B :=
  match m with
  | inl e => inl e
  | inr a => k a
  end.

(** [a / b] on Python floats: a zero divisor raises. *)
Definition truediv (a b : Q) : result Q :=
  if Qeq_bool b 0 then raise ZeroDivisionError else ret (a / b).

(** [int(x)] on a float: truncation towards zero. *)
Definition int (x : Q) : Z := Z.quot (Qnum x) (Zpos (Qden x)).

(** [abs(x)]. *)
Definition abs (x : Q) : Q := Qabs x.

End Py.

Notation "x <- m ;; k" := (Py.bind m (fun x => k))
  (at level 61, m at next level, right associativity).
Notation "' p <- m ;; k" := (Py.bind m (fun p => k))
  (at level 61, p pattern, m at next level, right associativity).

(** ** numpy: double scalars, arrays and the element-wise operations *)

Module Np.

(** A double: a finite value or one of the special values. *)
Inductive npfloat : Type :=
| Fin (q : Q)
| PInf
| NInf
| NaN.

Definition Qltb (a b : Q) : bool := negb (Qle_bool b a).

Definition fneg (x : npfloat) : npfloat :=
  match x with
  | Fin a => Fin (- a)
  | PInf => NInf
  | NInf => PInf
  | NaN => NaN
  end.

Definition fadd (x y : npfloat) : npfloat :=
  match x, y with
  | NaN, _ | _, NaN => NaN
  | Fin a, Fin b => Fin (a + b)
  | PInf, NInf | NInf, PInf => NaN
  | PInf, _ | _, PInf => PInf
  | NInf, _ | _, NInf => NInf
  end.

Definition fsub (x y : npfloat) : npfloat := fadd x (fneg y).

(** An infinity with the sign of [a], or [NaN] when [a] is zero. *)
Definition signed_inf (a : Q) : npfloat :=
  if Qltb 0 a then PInf else if Qltb a 0 then NInf else NaN.

Definition fmul (x y : npfloat) : npfloat :=
  match x, y with
  | NaN, _ | _, NaN => NaN
  | Fin a, Fin b => Fin (a * b)
  | Fin a, PInf | PInf, Fin a => signed_inf a
  | Fin a, NInf | NInf, Fin a => signed_inf (- a)
  | PInf, PInf | NInf, NInf => PInf
  | PInf, NInf | NInf, PInf => NInf
  end.

(** Division never raises: a zero divisor gives an infinity, or [NaN]
    for [0 / 0]. *)
Definition fdiv (x y : npfloat) : npfloat :=
  match x, y with
  | NaN, _ | _, NaN => NaN
  | Fin a, Fin b => if Qeq_bool b 0 then signed_inf a else Fin (a / b)
  | Fin _, PInf | Fin _, NInf => Fin 0
  | PInf, Fin b => if Qltb b 0 then NInf else PInf
  | NInf, Fin b => if Qltb b 0 then PInf else NInf
  | _, _ => NaN
  end.

(** [x < y]; every comparison with [NaN] is false. *)
Definition flt (x y : npfloat) : bool :=
  match x, y with
  | NaN, _ | _, NaN => false
  | Fin a, Fin b => Qltb a b
  | _, NInf | PInf, _ => false
  | NInf, _ | Fin _, PInf => true
  end.

(** [np.maximum] and [np.minimum]: a [NaN] operand wins. *)
Definition maximum (x y : npfloat) : npfloat :=
  match x, y with
  | NaN, _ | _, NaN => NaN
  | _, _ => if flt x y then y else x
  end.

Definition minimum (x y : npfloat) : npfloat :=
  match x, y with
  | NaN, _ | _, NaN => NaN
  | _, _ => if flt y x then y else x
  end.

(** [np.clip(x, lo, hi)]. *)
Definition clip (x lo hi : npfloat) : npfloat :=
  minimum (maximum x lo) hi.

(** Rounding to the nearest integer, ties to the even one. *)
Definition Qrint (q : Q) : Z :=
  let f := Qfloor q in
  let r := q - inject_Z f in
  if Qltb r (1 # 2) then f
  else if Qltb (1 # 2) r then (f + 1)%Z
  else if Z.even f then f else (f + 1)%Z.

(** [np.rint]. *)
Definition rint (x : npfloat) : npfloat :=
  match x with
  | Fin q => Fin (inject_Z (Qrint q))
  | _ => x
  end.

(** [x.astype(np.uint16)] on one double: the fractional part is dropped.
    Outside the open interval (-1, 65536), and on the special values, the
    conversion is left undefined by C and numpy returns a
    platform-dependent number: [None]. *)
Definition astype_uint16 (x : npfloat) : option Z :=
  match x with
  | Fin q =>
      if Qltb (-1) q && Qltb q 65536 then Some (Py.int q) else None
  | _ => None
  end.

(** A two-dimensional array: its shape and its samples in row-major
    order. *)
Record ndarray (A : Type) : Type := mk_ndarray {
  nrows : nat;
  ncols : nat;
  samples : list A
}.
Arguments mk_ndarray {A} _ _ _.
Arguments nrows {A} _.
Arguments ncols {A} _.
Arguments samples {A} _.

Definition well_shaped {A : Type} (a : ndarray A) : Prop :=
  List.length (samples a) = (nrows a * ncols a)%nat.

(** An element-wise operation (a scalar operand is broadcast). *)
Definition amap {A B : Type} (f : A -> B) (a : ndarray A) : ndarray B :=
  mk_ndarray (nrows a) (ncols a) (List.map f (samples a)).

Definition Qmin' (a b : Q) : Q := if Qle_bool a b then a else b.
Definition Qmax' (a b : Q) : Q := if Qle_bool a b then b else a.

(** [np.min] and [np.max] over all the samples; the reduction of an
    empty array raises [ValueError]. *)
Definition amin (a : ndarray Q) : Py.result Q :=
  match samples a with
  | [] => Py.raise Py.ValueError
  | x :: l => Py.ret (fold_left Qmin' l x)
  end.

Definition amax (a : ndarray Q) : Py.result Q :=
  match samples a with
  | [] => Py.raise Py.ValueError
  | x :: l => Py.ret (fold_left Qmax' l x)
  end.

End Np.

(** ** GDAL: the part of a dataset the script reads *)

Module Gdal.

(** The sample types of a raster band.  The band of an opened dataset
    always has one of them. *)
Inductive GDALDataType : Type :=
| GDT_Byte | GDT_Int8
| GDT_UInt16 | GDT_Int16
| GDT_UInt32 | GDT_Int32
| GDT_UInt64 | GDT_Int64
| GDT_Float32 | GDT_Float64
| GDT_CInt16 | GDT_CInt32
| GDT_CFloat32 | GDT_CFloat64.

(** [gdal.GetDataTypeSize]: the width of a sample in bits. *)
Definition GetDataTypeSize (t : GDALDataType) : Z :=
  match t with
  | GDT_Byte | GDT_Int8 => 8
  | GDT_UInt16 | GDT_Int16 => 16
  | GDT_UInt32 | GDT_Int32 | GDT_Float32 | GDT_CInt16 => 32
  | GDT_UInt64 | GDT_Int64 | GDT_Float64 | GDT_CInt32 | GDT_CFloat32 => 64
  | GDT_CFloat64 => 128
  end.

(** The six coefficients of the affine transform, indexed 0 to 5. *)
Definition geotransform : Type := (Q * Q * Q * Q * Q * Q)%type.

Definition gt_1 (g : geotransform) : Q :=
  let '(_, w, _, _, _, _) := g in w.

Definition gt_5 (g : geotransform) : Q :=
  let '(_, _, _, _, _, h) := g in h.

(** A single-band dataset. *)
Record Dataset : Type := mk_Dataset {
  GetGeoTransform : geotransform;
  ReadAsArray : Np.ndarray Q;
  DataType : GDALDataType
}.

(** [band.ComputeRasterMinMax()]: the exact extrema of the band.  A raster
    file has at least one pixel, so the error of the empty reduction is not
    reached on a dataset read from a file. *)
Definition ComputeRasterMinMax (d : Dataset) : Py.result (Q * Q) :=
  lo <- Np.amin (ReadAsArray d) ;;
  hi <- Np.amax (ReadAsArray d) ;;
  Py.ret (lo, hi).

End Gdal.

(** ** OpenCV: the size contract of [cv2.resize] *)

Module Cv2.

Section Resize.

(** The interpolated samples of a [rows] by [cols] output; the kernel is
    not part of what is verified here. *)
Variable interpolate : Np.ndarray Q -> nat -> nat -> list Q.

(** [cv2.resize(src, (width, height))]: the output has [height] rows and
    [width] columns; a size that is not positive in both directions is
    refused. *)
Definition resize (src : Np.ndarray Q) (dsize : Z * Z) : Py.result (Np.ndarray Q) :=
  let '(width, height) := dsize in
  if ((0 <? width) && (0 <? height))%Z
  then
    let rows := Z.to_nat height in
    let cols := Z.to_nat width in
    Py.ret (Np.mk_ndarray rows cols (interpolate src rows cols))
  else Py.raise Py.cv2_error.

End Resize.

End Cv2.

(** ** The functions of tiftool.py *)

Module Tiftool.

Import Np.

Section Source.

(** [gdal.Open]: [None] when the file cannot be opened. *)
Variable gdal_Open : string -> option Gdal.Dataset.

Definition get_geotiff_data (geotiff_path : string)
  : Py.result (ndarray Q * Z * Q * Q * Q) :=
  match gdal_Open geotiff_path with
  | None => Py.raise (Py.Exception "Error opening GeoTIFF file.")
  | Some dataset =>
      let geotransform := Gdal.GetGeoTransform dataset in
      let img := Gdal.ReadAsArray dataset in
      let pixel_width := Py.abs (Gdal.gt_1 geotransform) in
      let pixel_height := Py.abs (Gdal.gt_5 geotransform) in
      let color_depth := Gdal.GetDataTypeSize (Gdal.DataType dataset) in
      ' (min_elevation, max_elevation) <- Gdal.ComputeRasterMinMax dataset ;;
      color_step_dist <-
        Py.truediv (max_elevation - min_elevation)
                   (inject_Z (2 ^ color_depth - 1)) ;;
      Py.ret (img, color_depth, pixel_width, pixel_height, color_step_dist)
  end.

End Source.

Definition calculate_resize_factors
  (orig_pixel_width orig_pixel_height new_pixel_size : Q) : Py.result (Q * Q) :=
  resize_factor_x <- Py.truediv orig_pixel_width new_pixel_size ;;
  resize_factor_y <- Py.truediv orig_pixel_height new_pixel_size ;;
  Py.ret (resize_factor_x, resize_factor_y).

Section Resample.

Variable interpolate : ndarray Q -> nat -> nat -> list Q.

Definition resize_image (img : ndarray Q) (resize_factor_x resize_factor_y : Q)
  : Py.result (ndarray Q) :=
  let orig_height := Z.of_nat (nrows img) in
  let orig_width := Z.of_nat (ncols img) in
  let new_width := Py.int (inject_Z orig_width * resize_factor_x) in
  let new_height := Py.int (inject_Z orig_height * resize_factor_y) in
  Cv2.resize interpolate img (new_width, new_height).

End Resample.

(** The number of output steps chosen by [normalize_to_uint16] (its
    if/else on the mode and on the requested step distance). *)
Definition color_range
  (img_min img_max : Q) (new_color_step_dist : npfloat) (use_binary_mode : bool)
  : npfloat :=
  if negb use_binary_mode
     && flt (Fin 0) new_color_step_dist
     && flt new_color_step_dist (Fin 65535)
  then fdiv (Fin (img_max - img_min)) new_color_step_dist
  else Fin 65535.

(** [normalize_to_uint16] up to, and without, the final [astype]: the
    array of doubles that is cast, and the returned step distance. *)
Definition normalize_float
  (img : ndarray Q) (new_color_step_dist : npfloat) (use_binary_mode : bool)
  : Py.result (ndarray npfloat * npfloat) :=
  img_min <- amin img ;;
  img_max <- amax img ;;
  let normalized_img :=
    amap (fun x => fdiv (Fin (x - img_min)) (Fin (img_max - img_min))) img in
  let normalized_img :=
    if use_binary_mode then amap rint normalized_img else normalized_img in
  let color_range :=
    color_range img_min img_max new_color_step_dist use_binary_mode in
  let normalized_img := amap (fun u => fmul u color_range) normalized_img in
  let normalized_img :=
    amap (fun u => fadd (clip u (Fin 0) color_range)
                        (fdiv (fsub (Fin 65535) color_range) (Fin 2)))
         normalized_img in
  let color_step_dist := fdiv (Fin (img_max - img_min)) color_range in
  Py.ret (normalized_img, color_step_dist).

Definition normalize_to_uint16
  (img : ndarray Q) (new_color_step_dist : npfloat) (use_binary_mode : bool)
  : Py.result (ndarray (option Z) * npfloat) :=
  ' (normalized_img, color_step_dist) <-
    normalize_float img new_color_step_dist use_binary_mode ;;
  Py.ret (amap astype_uint16 normalized_img, color_step_dist).

(** What [normalize_float] computes from one sample [x] for the extrema
    [lo], [hi] and the number of steps [cr]: the composition of its
    element-wise operations (see [normalize_float_eq]). *)
Definition pixel_float (lo hi : Q) (cr : npfloat) (binary : bool) (x : Q) : npfloat :=
  let u := fdiv (Fin (x - lo)) (Fin (hi - lo)) in
  let u := if binary then rint u else u in
  fadd (clip (fmul u cr) (Fin 0) cr) (fdiv (fsub (Fin 65535) cr) (Fin 2)).

End Tiftool.

(** ** Concrete inputs *)

Module Inputs.

Import Np.

(** A raster whose every sample is 5.0. *)
Definition constant_5 : ndarray Q := mk_ndarray 2 2 [5; 5; 5; 5].

(** A raster whose range, 131070, is twice the 16-bit span. *)
Definition wide : ndarray Q := mk_ndarray 1 2 [0; 131070].

(** Sixteen samples from 1000 to 4000 in steps of 200. *)
Definition ramp : ndarray Q :=
  mk_ndarray 4 4
    [1000; 1200; 1400; 1600; 1800; 2000; 2200; 2400;
     2600; 2800; 3000; 3200; 3400; 3600; 3800; 4000].

(** A 50-row, 100-column raster of zeros. *)
Definition blank_100x50 : ndarray Q := mk_ndarray 50 100 (repeat 0 5000).

(** Nearest-neighbour sampling, one possible kernel of [cv2.resize]. *)
Definition nearest (src : ndarray Q) (rows cols : nat) : list Q :=
  flat_map
    (fun i =>
       List.map
         (fun j =>
            nth ((i * nrows src / rows) * ncols src + j * ncols src / cols)%nat
                (samples src) 0)
         (seq 0 cols))
    (seq 0 rows).

(** A 16-bit dataset holding [ramp], with 2-unit pixels. *)
Definition ramp_dataset : Gdal.Dataset :=
  Gdal.mk_Dataset (0, 2, 0, 0, 0, -2) ramp Gdal.GDT_UInt16.

(** A 16-bit dataset holding the constant raster. *)
Definition constant_dataset : Gdal.Dataset :=
  Gdal.mk_Dataset (0, 1, 0, 0, 0, -1) constant_5 Gdal.GDT_UInt16.

Definition open_ramp (path : string) : option Gdal.Dataset := Some ramp_dataset.
Definition open_constant (path : string) : option Gdal.Dataset := Some constant_dataset.

End Inputs.

(** ** The script: output path, report and [main] *)

Module Script.

Import Np Tiftool.

(** [s.rsplit(sep, 1)] for a one-character separator: the text before the
    last separator and, when there is one, the text after it. *)
Fixpoint rsplit1 (sep : ascii) (s : string) : string * option string :=
  match s with
  | EmptyString => (EmptyString, None)
  | String c rest =>
      match rsplit1 sep rest with
      | (h, Some t) => (String c h, Some t)
      | (h, None) =>
          if Ascii.eqb c sep then (EmptyString, Some h) else (String c h, None)
      end
  end.

(** Whether the character occurs in the text. *)
Fixpoint occurs (c : ascii) (s : string) : bool :=
  match s with
  | EmptyString => false
  | String d rest => Ascii.eqb d c || occurs c rest
  end.

(** Line 79: ['{}.png'.format(geotiff_path.rsplit('.', 1)[0])]. *)
Definition output_path (geotiff_path : string) : string :=
  (fst (rsplit1 "." geotiff_path) ++ ".png")%string.

(** The Python values that [main] passes around and prints. *)
Inductive pyobj : Type :=
| PStr (s : string)
| PInt (z : Z)
| PFloat (x : npfloat).

(** The truth value of an object in a condition. *)
Definition truthy (v : pyobj) : bool :=
  match v with
  | PStr s => negb (String.eqb s EmptyString)
  | PInt z => negb (Z.eqb z 0)
  | PFloat (Fin q) => negb (Qeq_bool q 0)
  | PFloat _ => true
  end.

(** What the run does that is visible outside: the calls of [print], the
    prompts of [input] and the call of [cv2.imwrite], in order. *)
Inductive event : Type :=
| Print (args : list pyobj)
| Prompt (text : string)
| Imwrite (path : string) (img : ndarray (option Z)).

(** The state threaded through the script: the events so far and the
    number of lines read from the terminal. *)
Record world : Type := mk_world {
  trace : list event;
  consumed : nat
}.

Definition start : world := mk_world [] 0.

(** A statement of the script: it changes the state and either returns a
    value or raises; after an exception nothing more is run. *)
Definition io (A : Type) : Type := world -> world * Py.result A.

Definition io_ret {A : Type} (a : A) : io A := fun w => (w, inr a).

Definition io_bind {A B : Type} (m : io A) (k : A -> io B) : io B :=
  fun w =>
    match m w with
    | (w', inl e) => (w', inl e)
    | (w', inr a) => k a w'
    end.

Definition lift {A : Type} (r : Py.result A) : io A := fun w => (w, r).

Definition emit (e : event) : io unit :=
  fun w => (mk_world (trace w ++ [e]) (consumed w), inr tt).

Definition print (args : list pyobj) : io unit := emit (Print args).

Definition imwrite (path : string) (img : ndarray (option Z)) : io unit :=
  emit (Imwrite path img).

Notation "x <~ m ;; k" := (io_bind m (fun x => k))
  (at level 61, m at next level, right associativity).
Notation "' p <~ m ;; k" := (io_bind m (fun p => k))
  (at level 61, p pattern, m at next level, right associativity).
Notation "m ;;> k" := (io_bind m (fun _ => k))
  (at level 61, right associativity).

(** Lines 69-75. *)
Definition show_info
  (path : string) (color_depth pixel_width pixel_height color_step_dist : pyobj)
  (use_binary_mode : bool) : io unit :=
  print [PStr "File path:"; PStr path] ;;>
  print [PStr "Color depth:"; color_depth; PStr "bit"] ;;>
  print [PStr "Pixel width:"; pixel_width; PStr "units"] ;;>
  print [PStr "Pixel height:"; pixel_height; PStr "units"] ;;>
  if negb use_binary_mode
  then print [PStr "Distance covered by one color step:"; color_step_dist;
              PStr "units"]
  else io_ret tt.

Section Main.

(** The collaborators of the script: the files that GDAL can open, the
    kernels of OpenCV, the conversions [float] and [int] of a text, and
    the lines typed at the terminal. *)
Variable gdal_Open : string -> option Gdal.Dataset.
Variable interpolate : ndarray Q -> nat -> nat -> list Q.
Variable GaussianBlur : ndarray Q -> Z * Z -> Z -> Py.result (ndarray Q).
Variable float_of_string : string -> Py.result npfloat.
Variable int_of_string : string -> Py.result Z.
Variable stdin : nat -> string.

(** [input(prompt)]. *)
Definition input (prompt : string) : io string :=
  fun w =>
    (mk_world (trace w ++ [Prompt prompt]) (S (consumed w)),
     inr (stdin (consumed w))).

(** [float(v)]. *)
Definition float (v : pyobj) : Py.result npfloat :=
  match v with
  | PFloat x => Py.ret x
  | PInt z => Py.ret (Fin (inject_Z z))
  | PStr s => float_of_string s
  end.

(** Lines 29-32. *)
Definition apply_gaussian_blur (img : ndarray Q) (kernel_size sigma_x : Z)
  : Py.result (ndarray Q) :=
  GaussianBlur img (kernel_size, kernel_size) sigma_x.

(** Lines 88-89 of [main] on the converted pixel size.  The pixel sizes
    read from the file are finite: divided by an infinity they give a zero
    factor, and divided by [NaN] they give [NaN], which [int] refuses. *)
Definition resample
  (img : ndarray Q) (pixel_width pixel_height : Q) (new_pixel_size : npfloat)
  : Py.result (ndarray Q) :=
  match new_pixel_size with
  | Fin size =>
      ' (resize_factor_x, resize_factor_y) <-
        calculate_resize_factors pixel_width pixel_height size ;;
      resize_image interpolate img resize_factor_x resize_factor_y
  | PInf | NInf => resize_image interpolate img 0 0
  | NaN => Py.raise Py.ValueError
  end.

(** Lines 78-103. *)
Definition main
  (geotiff_path : string) (new_pixel_size new_color_step_dist : pyobj)
  (add_blur use_binary_mode : bool) : io unit :=
  let output_path := output_path geotiff_path in
  ' (img, color_depth, pixel_width, pixel_height, color_step_dist) <~
    lift (get_geotiff_data gdal_Open geotiff_path) ;;
  print [PStr "INPUT"] ;;>
  show_info geotiff_path (PInt color_depth) (PFloat (Fin pixel_width))
            (PFloat (Fin pixel_height)) (PFloat (Fin color_step_dist))
            use_binary_mode ;;>
  print [PStr "Processing..."] ;;>
  ' (img, new_pixel_size) <~
    (if truthy new_pixel_size
     then
       size <~ lift (float new_pixel_size) ;;
       img <~ lift (resample img pixel_width pixel_height size) ;;
       io_ret (img, PFloat size)
     else io_ret (img, new_pixel_size)) ;;
  img <~
    (if add_blur
     then
       print [PStr "GAUSSIAN BLUR SETTINGS"] ;;>
       kernel_text <~ input "Enter kernel size (odd number): " ;;
       blur_kernel_size <~ lift (int_of_string kernel_text) ;;
       intensity_text <~ input "Enter blur intensity (sigma x): " ;;
       blur_intensity <~ lift (int_of_string intensity_text) ;;
       lift (apply_gaussian_blur img blur_kernel_size blur_intensity)
     else io_ret img) ;;
  new_color_step_dist <~ lift (float new_color_step_dist) ;;
  ' (img, output_color_step_dist) <~
    lift (normalize_to_uint16 img new_color_step_dist use_binary_mode) ;;
  print [PStr "Done"] ;;>
  print [PStr "RESULT"] ;;>
  show_info output_path (PInt 16)
            (if truthy new_pixel_size then new_pixel_size
             else PFloat (Fin pixel_width))
            (if truthy new_pixel_size then new_pixel_size
             else PFloat (Fin pixel_height))
            (PFloat output_color_step_dist) use_binary_mode ;;>
  imwrite output_path img.

End Main.

(** The events of a trace that write a file. *)
Definition is_imwrite (e : event) : bool :=
  match e with
  | Imwrite _ _ => true
  | _ => false
  end.

Definition writes (t : list event) : list event := List.filter is_imwrite t.

(** The first arguments of the [print] calls of a trace. *)
Definition printed_labels (t : list event) : list pyobj :=
  flat_map (fun e => match e with
                     | Print (label :: _) => [label]
                     | _ => []
                     end) t.

(** Whether a [print] call shows the colour step distance. *)
Definition is_step_report (e : event) : bool :=
  match e with
  | Print (PStr label :: _) =>
      String.eqb label "Distance covered by one color step:"
  | _ => false
  end.

(** A statement whose events all satisfy [P], however it ends. *)
Definition emits (P : event -> Prop) {A : Type} (m : io A) : Prop :=
  forall w w' r, m w = (w', r) ->
    exists d, trace w' = trace w ++ d /\ Forall P d.

(** A statement whose events all satisfy [P], except that, when it
    returns, its last event satisfies [Q]. *)
Definition emits_then (P Q : event -> Prop) {A : Type} (m : io A) : Prop :=
  forall w w' r, m w = (w', r) ->
    match r with
    | inl _ => exists d, trace w' = trace w ++ d /\ Forall P d
    | inr _ => exists d e, trace w' = trace w ++ d ++ [e] /\ Forall P d /\ Q e
    end.

End Script.

(** ** Concrete collaborators *)

Module Terminal.

Import Np.

(** [float] on the few texts used below. *)
Definition float_of_string (s : string) : Py.result npfloat :=
  if String.eqb s "0" then Py.ret (Fin 0)
  else if String.eqb s "1" then Py.ret (Fin 1)
  else if String.eqb s "0.5" then Py.ret (Fin (1 # 2))
  else if String.eqb s "nan" then Py.ret NaN
  else Py.raise Py.ValueError.

(** [int] on the few texts used below. *)
Definition int_of_string (s : string) : Py.result Z :=
  if String.eqb s "3" then Py.ret 3%Z
  else if String.eqb s "1" then Py.ret 1%Z
  else Py.raise Py.ValueError.

(** A user who types 3 at every prompt. *)
Definition stdin (n : nat) : string := "3"%string.

(** A blur that returns its input, and refuses an even kernel size. *)
Definition GaussianBlur (img : ndarray Q) (ksize : Z * Z) (sigma : Z)
  : Py.result (ndarray Q) :=
  if Z.odd (fst ksize) && Z.odd (snd ksize) then Py.ret img
  else Py.raise Py.cv2_error.

(** No file can be opened. *)
Definition open_nothing (path : string) : option Gdal.Dataset := None.

End Terminal.

(** ** Machine arithmetic: the rounding of doubles and the dtype of the band

    The definitions above compute on exact numbers.  Two places of the
    script are sensitive to what the machine does instead, and are
    modelled here as executed: the product of a dimension by a resize
    factor, a double that is rounded before [int] truncates it, and the
    differences of samples of an integer band, which numpy computes in the
    band's own integer type, where they wrap around. *)

Module Machine.

Import Np.

(** *** Doubles *)

(** The integer part of the binary logarithm of a positive rational. *)
Definition ilog2 (a : Q) : Z :=
  let e := (Z.log2 (Qnum a) - Z.log2 (Zpos (Qden a)))%Z in
  if Qle_bool (2 ^ e) a then e else (e - 1)%Z.

(** Rounding to the nearest double (53 significant bits, exponents of the
    last bit from -1074 on, ties to the even significand); a magnitude
    that rounds to 2^1024 or more overflows to an infinity. *)
Definition round64 (q : Q) : npfloat :=
  if Qeq_bool q 0 then Fin 0
  else
    let a := Qabs q in
    let p := Z.max (ilog2 a - 52) (-1074) in
    let n := Qrint (a / 2 ^ p) in
    let r := inject_Z n * 2 ^ p in
    if Qle_bool (2 ^ 1024) r
    then (if Qltb q 0 then NInf else PInf)
    else Fin (if Qltb q 0 then - r else r).

Definition fround (x : npfloat) : npfloat :=
  match x with
  | Fin q => round64 q
  | _ => x
  end.

(** The operations of doubles: the exact result, rounded. *)
Definition double_add (x y : npfloat) : npfloat := fround (fadd x y).
Definition double_sub (x y : npfloat) : npfloat := fround (fsub x y).
Definition double_mul (x y : npfloat) : npfloat := fround (fmul x y).
Definition double_div (x y : npfloat) : npfloat := fround (fdiv x y).

(** The conversion of an integer to a double. *)
Definition double_of_int (z : Z) : npfloat := round64 (inject_Z z).

(** *** Python on doubles *)

(** The exceptions above, and the one [int] raises on an infinity (so
    does the conversion of an integer too large for a double). *)
Inductive exn : Type :=
| Raised (e : Py.exn)
| OverflowError.

Definition result (A : Type) : Type := (exn + A)%type.

Definition bind {A B : Type} (m : result A) (k : A -> result B) : result B :=
  match m with
  | inl e => inl e
  | inr a => k a
  end.

Definition lift {A : Type} (r : Py.result A) : result A :=
  match r with
  | inl e => inl (Raised e)
  | inr a => inr a
  end.

(** [int(x)] on a double. *)
Definition int_of_double (x : npfloat) : result Z :=
  match x with
  | Fin q => inr (Py.int q)
  | NaN => inl (Raised Py.ValueError)
  | PInf | NInf => inl OverflowError
  end.

(** [int(n * f)] for a dimension [n] and a double [f], as on lines 45 and
    46: the dimension is converted to a double, the product is rounded,
    and [int] drops its fractional part. *)
Definition scaled_dimension (n : nat) (f : npfloat) : result Z :=
  match double_of_int (Z.of_nat n) with
  | Fin w => int_of_double (double_mul (Fin w) f)
  | _ => inl OverflowError
  end.

Section Resample.

Variable interpolate : ndarray Q -> nat -> nat -> list Q.

(** Lines 41-49 on doubles. *)
Definition resize_image (img : ndarray Q) (resize_factor_x resize_factor_y : npfloat)
  : result (ndarray Q) :=
  bind (scaled_dimension (ncols img) resize_factor_x) (fun new_width =>
  bind (scaled_dimension (nrows img) resize_factor_y) (fun new_height =>
  lift (Cv2.resize interpolate img (new_width, new_height)))).

End Resample.

(** *** Integer bands *)

(** The integer sample types of numpy. *)
Inductive int_dtype : Type :=
| int8 | uint8 | int16 | uint16 | int32 | uint32 | int64 | uint64.

Definition bits (t : int_dtype) : Z :=
  match t with
  | int8 | uint8 => 8
  | int16 | uint16 => 16
  | int32 | uint32 => 32
  | int64 | uint64 => 64
  end.

Definition signed (t : int_dtype) : bool :=
  match t with
  | int8 | int16 | int32 | int64 => true
  | uint8 | uint16 | uint32 | uint64 => false
  end.

(** The least and the largest value of the type. *)
Definition dtype_min (t : int_dtype) : Z :=
  if signed t then (- 2 ^ (bits t - 1))%Z else 0%Z.

Definition dtype_max (t : int_dtype) : Z :=
  if signed t then (2 ^ (bits t - 1) - 1)%Z else (2 ^ bits t - 1)%Z.

(** The value of the type that is congruent to [z] modulo 2^bits: what
    an operation of the type returns when its exact result is [z]. *)
Definition wrap (t : int_dtype) (z : Z) : Z :=
  ((z - dtype_min t) mod 2 ^ bits t + dtype_min t)%Z.

(** [np.min] and [np.max] on an integer array. *)
Definition amin (a : ndarray Z) : Py.result Z :=
  match samples a with
  | [] => Py.raise Py.ValueError
  | x :: l => Py.ret (fold_left Z.min l x)
  end.

Definition amax (a : ndarray Z) : Py.result Z :=
  match samples a with
  | [] => Py.raise Py.ValueError
  | x :: l => Py.ret (fold_left Z.max l x)
  end.

(** Lines 57-62 on a band of the integer type [t]: the difference of the
    extrema is taken in [t], then divided as a double. *)
Definition color_range
  (t : int_dtype) (img_min img_max : Z)
  (new_color_step_dist : npfloat) (use_binary_mode : bool) : npfloat :=
  if negb use_binary_mode
     && flt (Fin 0) new_color_step_dist
     && flt new_color_step_dist (Fin 65535)
  then double_div (double_of_int (wrap t (img_max - img_min)))
                  new_color_step_dist
  else Fin 65535.

(** Lines 52-66 on a band of the integer type [t], up to the cast.  The
    differences [img - img_min] and [img_max - img_min] are integers of
    type [t]; their quotient and everything after it are doubles.  On
    line 65 the quotient of the difference by the Python integer 65535 is
    taken as a double, as numpy 1 does for every type; numpy 2 converts
    that integer to the type of the band first and refuses it for a type
    that cannot hold it (the 8-bit types and [int16]). *)
Definition normalize_float
  (t : int_dtype) (img : ndarray Z)
  (new_color_step_dist : npfloat) (use_binary_mode : bool)
  : Py.result (ndarray npfloat * npfloat) :=
  img_min <- amin img ;;
  img_max <- amax img ;;
  let range := double_of_int (wrap t (img_max - img_min)) in
  let normalized_img :=
    amap (fun x => double_div (double_of_int (wrap t (x - img_min))) range)
         img in
  let normalized_img :=
    if use_binary_mode then amap rint normalized_img else normalized_img in
  let color_range :=
    color_range t img_min img_max new_color_step_dist use_binary_mode in
  let normalized_img :=
    amap (fun u => double_mul u color_range) normalized_img in
  let normalized_img :=
    amap (fun u =>
            double_add (clip u (Fin 0) color_range)
                       (double_div (double_sub (Fin 65535) color_range) (Fin 2)))
         normalized_img in
  let color_step_dist := double_div range color_range in
  Py.ret (normalized_img, color_step_dist).

Definition normalize_to_uint16
  (t : int_dtype) (img : ndarray Z)
  (new_color_step_dist : npfloat) (use_binary_mode : bool)
  : Py.result (ndarray (option Z) * npfloat) :=
  ' (normalized_img, color_step_dist) <-
    normalize_float t img new_color_step_dist use_binary_mode ;;
  Py.ret (amap astype_uint16 normalized_img, color_step_dist).

(** *** Concrete inputs *)

(** The double that the text 0.7 denotes. *)
Definition double_0_7 : Q := 6305039478318694 # 9007199254740992.

(** One row of ten columns. *)
Definition row_of_ten : ndarray Q := mk_ndarray 1 10 (repeat 0 10).

(** The doubles 10.0 and 1.0, and the products 10 * 0.7 and 1 * 1.0 as
    the machine computes them. *)
Definition double_10 : Q :=
  Eval vm_compute in
    match double_of_int 10 with Fin w => w | _ => 0 end.

Definition double_1 : Q :=
  Eval vm_compute in
    match double_of_int 1 with Fin w => w | _ => 0 end.

Definition ten_times_0_7 : Q :=
  Eval vm_compute in
    match double_mul (Fin double_10) (Fin double_0_7) with
    | Fin p => p
    | _ => 0
    end.

Definition one_times_1 : Q :=
  Eval vm_compute in
    match double_mul (Fin double_1) (Fin 1) with Fin p => p | _ => 0 end.

(** Three 16-bit signed samples whose range, 40000, exceeds 32767. *)
Definition int16_band : ndarray Z := mk_ndarray 1 3 [-20000; 0; 20000]%Z.

(** Three 32-bit signed samples whose range exceeds 2^31 - 1. *)
Definition int32_band : ndarray Z :=
  mk_ndarray 1 3 [-2000000000; 0; 2000000000]%Z.

End Machine.

(** * Properties *)

(** ** Rational arithmetic used by the proofs *)

Section QFacts.

Import Np.

Lemma Qltb_lt (a b : Q) : Qltb a b = true <-> a < b.
Proof.
  unfold Qltb. rewrite negb_true_iff.
  split; intro H.
  - apply Qnot_le_lt. intro Hle. apply Qle_bool_iff in Hle. congruence.
  - destruct (Qle_bool b a) eqn:E; [|reflexivity].
    apply Qle_bool_iff in E. exfalso. apply (Qlt_not_le _ _ H E).
Qed.

Lemma Qltb_ge (a b : Q) : Qltb a b = false <-> b <= a.
Proof.
  unfold Qltb. rewrite negb_false_iff. apply Qle_bool_iff.
Qed.

Lemma Qeq_bool_false (a b : Q) : ~ a == b -> Qeq_bool a b = false.
Proof.
  intro H. destruct (Qeq_bool a b) eqn:E; [|reflexivity].
  apply Qeq_bool_iff in E. contradiction.
Qed.

Lemma Qeq_bool_true (a b : Q) : a == b -> Qeq_bool a b = true.
Proof. intro H. now apply Qeq_bool_iff. Qed.

(** [int] is invariant under the representation of its argument and is
    the floor on non-negative arguments. *)
Lemma int_nonneg_floor (q : Q) : 0 <= q -> Py.int q = Qfloor q.
Proof.
  destruct q as [n d]. unfold Py.int, Qfloor, Qle. simpl.
  intro H. rewrite Z.mul_1_r in H.
  apply Z.quot_div_nonneg; lia.
Qed.

Lemma Qfloor_inject_eq (q : Q) (z : Z) : q == inject_Z z -> Qfloor q = z.
Proof.
  intro H. rewrite (Qfloor_comp _ _ H). apply Qfloor_Z.
Qed.

Lemma int_inject_eq (q : Q) (z : Z) : (0 <= z)%Z -> q == inject_Z z -> Py.int q = z.
Proof.
  intros Hz H. rewrite int_nonneg_floor.
  - now apply Qfloor_inject_eq.
  - rewrite H. change 0 with (inject_Z 0). now rewrite <- Zle_Qle.
Qed.

(** The unit-interval position of a sample between the extrema. *)
Lemma unit_position (x lo hi : Q) :
  lo <= x -> x <= hi -> lo < hi ->
  0 <= (x - lo) / (hi - lo) /\ (x - lo) / (hi - lo) <= 1.
Proof.
  intros H1 H2 H3.
  assert (Hd : 0 < hi - lo) by lra.
  split.
  - apply Qle_shift_div_l; [exact Hd | lra].
  - apply Qle_shift_div_r; [exact Hd | lra].
Qed.

Lemma Qrint_unit (u : Q) : 0 <= u -> u <= 1 -> Qrint u = 0%Z \/ Qrint u = 1%Z.
Proof.
  intros H0 H1. unfold Qrint.
  assert (Hf : Qfloor u = 0%Z \/ Qfloor u = 1%Z).
  { assert (A : (0 <= Qfloor u)%Z).
    { change 0%Z with (Qfloor 0). now apply Qfloor_resp_le. }
    assert (B : (Qfloor u <= 1)%Z).
    { change 1%Z with (Qfloor 1). now apply Qfloor_resp_le. }
    lia. }
  destruct Hf as [Hf | Hf]; rewrite Hf.
  - destruct (Qltb _ _); [now left|].
    destruct (Qltb _ _); [now right|]. now left.
  - assert (Hu : u - inject_Z 1 <= 0) by (change (inject_Z 1) with 1; lra).
    assert (E : Qltb (u - inject_Z 1) (1 # 2) = true) by (apply Qltb_lt; lra).
    rewrite E. now right.
Qed.



End QFacts.

(** ** The extrema of an array *)

Section Extrema.

Import Np.

Lemma Qmin'_cases (a b : Q) :
  (Qmin' a b = a /\ a <= b) \/ (Qmin' a b = b /\ b <= a).
Proof.
  unfold Qmin'. destruct (Qle_bool a b) eqn:E.
  - left. split; [reflexivity | now apply Qle_bool_iff].
  - right. split; [reflexivity|].
    apply Qlt_le_weak, Qnot_le_lt. intro H. apply Qle_bool_iff in H. congruence.
Qed.

Lemma Qmax'_cases (a b : Q) :
  (Qmax' a b = b /\ a <= b) \/ (Qmax' a b = a /\ b <= a).
Proof.
  unfold Qmax'. destruct (Qle_bool a b) eqn:E.
  - left. split; [reflexivity | now apply Qle_bool_iff].
  - right. split; [reflexivity|].
    apply Qlt_le_weak, Qnot_le_lt. intro H. apply Qle_bool_iff in H. congruence.
Qed.

Lemma fold_min_spec (l : list Q) (x : Q) :
  In (fold_left Qmin' l x) (x :: l) /\
  Forall (fun y => fold_left Qmin' l x <= y) (x :: l).
Proof.
  revert x. induction l as [|y l IH]; intro x; simpl.
  - split; [now left | constructor; [apply Qle_refl | constructor]].
  - destruct (IH (Qmin' x y)) as [Hin Hall].
    inversion Hall as [|m l' Hm Hl]; subst.
    destruct (Qmin'_cases x y) as [[E Hle] | [E Hle]]; rewrite E in *.
    + split.
      * destruct Hin as [Hin | Hin]; [now left | now right; right].
      * constructor; [exact Hm|]. constructor; [|exact Hl].
        now apply Qle_trans with x.
    + split.
      * destruct Hin as [Hin | Hin]; [now right; left | now right; right].
      * constructor; [now apply Qle_trans with y|]. now constructor.
Qed.

Lemma fold_max_spec (l : list Q) (x : Q) :
  In (fold_left Qmax' l x) (x :: l) /\
  Forall (fun y => y <= fold_left Qmax' l x) (x :: l).
Proof.
  revert x. induction l as [|y l IH]; intro x; simpl.
  - split; [now left | constructor; [apply Qle_refl | constructor]].
  - destruct (IH (Qmax' x y)) as [Hin Hall].
    inversion Hall as [|m l' Hm Hl]; subst.
    destruct (Qmax'_cases x y) as [[E Hle] | [E Hle]]; rewrite E in *.
    + split.
      * destruct Hin as [Hin | Hin]; [now right; left | now right; right].
      * constructor; [now apply Qle_trans with y|]. now constructor.
    + split.
      * destruct Hin as [Hin | Hin]; [now left | now right; right].
      * constructor; [exact Hm|]. constructor; [|exact Hl].
        now apply Qle_trans with x.
Qed.

(** [np.min] returns a sample of the array that bounds all of them. *)
Lemma amin_spec (a : ndarray Q) (lo : Q) :
  amin a = inr lo ->
  In lo (samples a) /\ Forall (fun y => lo <= y) (samples a).
Proof.
  unfold amin. destruct (samples a) as [|x l]; [discriminate|].
  intro H. injection H as <-. apply fold_min_spec.
Qed.

Lemma amax_spec (a : ndarray Q) (hi : Q) :
  amax a = inr hi ->
  In hi (samples a) /\ Forall (fun y => y <= hi) (samples a).
Proof.
  unfold amax. destruct (samples a) as [|x l]; [discriminate|].
  intro H. injection H as <-. apply fold_max_spec.
Qed.

(** The reductions succeed exactly on the arrays that have a sample. *)
Lemma amin_nonempty (a : ndarray Q) :
  samples a <> [] -> exists lo, amin a = inr lo.
Proof.
  unfold amin. destruct (samples a) as [|x l]; [congruence | eauto].
Qed.

Lemma amax_nonempty (a : ndarray Q) :
  samples a <> [] -> exists hi, amax a = inr hi.
Proof.
  unfold amax. destruct (samples a) as [|x l]; [congruence | eauto].
Qed.

(** On an array whose samples are all equal to [c], both are [c]. *)
Lemma fold_min_const (c : Q) (l : list Q) (x : Q) :
  Forall (fun y => y == c) (x :: l) -> fold_left Qmin' l x == c.
Proof.
  intro H. destruct (fold_min_spec l x) as [Hin _].
  rewrite Forall_forall in H. now apply H.
Qed.

Lemma fold_max_const (c : Q) (l : list Q) (x : Q) :
  Forall (fun y => y == c) (x :: l) -> fold_left Qmax' l x == c.
Proof.
  intro H. destruct (fold_max_spec l x) as [Hin _].
  rewrite Forall_forall in H. now apply H.
Qed.

End Extrema.

(** ** The normalisation, sample by sample *)

Section Normalize.

Import Np Tiftool.

Lemma normalize_float_eq (img : ndarray Q) (t : npfloat) (b : bool) (lo hi : Q) :
  amin img = inr lo -> amax img = inr hi ->
  normalize_float img t b =
    inr (amap (pixel_float lo hi (color_range lo hi t b) b) img,
         fdiv (Fin (hi - lo)) (color_range lo hi t b)).
Proof.
  intros Hlo Hhi. unfold normalize_float. rewrite Hlo, Hhi.
  cbn [Py.bind]. unfold Py.ret.
  destruct b; unfold amap; cbn [samples nrows ncols];
    rewrite !map_map; reflexivity.
Qed.

Lemma normalize_to_uint16_eq (img : ndarray Q) (t : npfloat) (b : bool) (lo hi : Q) :
  amin img = inr lo -> amax img = inr hi ->
  normalize_to_uint16 img t b =
    inr (amap (fun x => astype_uint16 (pixel_float lo hi (color_range lo hi t b) b x)) img,
         fdiv (Fin (hi - lo)) (color_range lo hi t b)).
Proof.
  intros Hlo Hhi. unfold normalize_to_uint16.
  rewrite (normalize_float_eq img t b lo hi Hlo Hhi).
  cbn [Py.bind]. unfold Py.ret, amap. cbn [samples nrows ncols].
  now rewrite map_map.
Qed.

(** With a proper range and a positive finite number of steps, the value
    of a sample between the extrema is finite and given in closed form. *)
Lemma clip_inside (v c : Q) : 0 <= v -> v <= c -> clip (Fin v) (Fin 0) (Fin c) = Fin v.
Proof.
  intros H0 Hc. unfold clip, maximum, minimum, flt.
  apply Qltb_ge in H0. rewrite H0.
  apply Qltb_ge in Hc. now rewrite Hc.
Qed.

Lemma pixel_float_continuous (lo hi c x : Q) :
  lo <= x -> x <= hi -> lo < hi -> 0 <= c ->
  pixel_float lo hi (Fin c) false x =
    Fin ((x - lo) / (hi - lo) * c + (65535 + - c) / 2).
Proof.
  intros H1 H2 H3 Hc.
  destruct (unit_position x lo hi H1 H2 H3) as [U0 U1].
  unfold pixel_float. simpl.
  rewrite Qeq_bool_false by lra. simpl.
  rewrite clip_inside; [reflexivity | nra | nra].
Qed.

Lemma pixel_float_binary (lo hi x : Q) :
  lo <= x -> x <= hi -> lo < hi ->
  pixel_float lo hi (Fin 65535) true x =
    Fin (inject_Z (Qrint ((x - lo) / (hi - lo))) * 65535 + (65535 + - 65535) / 2).
Proof.
  intros H1 H2 H3.
  destruct (unit_position x lo hi H1 H2 H3) as [U0 U1].
  unfold pixel_float. simpl.
  rewrite Qeq_bool_false by lra. simpl.
  rewrite clip_inside; [reflexivity | |];
    destruct (Qrint_unit _ U0 U1) as [E | E]; rewrite E; vm_compute; congruence.
Qed.

End Normalize.

(** ** Resampler *)

Section Resampler.

Import Np Tiftool.

Lemma truediv_nonzero (a b : Q) : ~ b == 0 -> Py.truediv a b = inr (a / b).
Proof. intro H. unfold Py.truediv. now rewrite Qeq_bool_false. Qed.

Lemma truediv_zero (a b : Q) : b == 0 -> Py.truediv a b = inl Py.ZeroDivisionError.
Proof. intro H. unfold Py.truediv. now rewrite Qeq_bool_true. Qed.

(** C7. For every original pixel width and height and every positive
    target pixel size, [calculate_resize_factors] returns exactly the two
    quotients (width / target, height / target); on (2.0, 2.0, 1.0) it
    returns (2.0, 2.0). *)
Theorem resize_factors_positive_target :
  (forall w h t : Q, 0 < t ->
     calculate_resize_factors w h t = inr (w / t, h / t)) /\
  (exists fx fy : Q,
     calculate_resize_factors 2 2 1 = inr (fx, fy) /\ fx == 2 /\ fy == 2).
Proof.
  split.
  - intros w h t Ht. unfold calculate_resize_factors.
    rewrite !truediv_nonzero by lra. reflexivity.
  - exists (2 / 1), (2 / 1). repeat split; reflexivity.
Qed.

Lemma resize_factors_positive_target_witness :
  calculate_resize_factors 3 (1 # 2) (3 # 2) = inr (3 / (3 # 2), (1 # 2) / (3 # 2)).
Proof.
  apply (proj1 resize_factors_positive_target 3 (1 # 2) (3 # 2)). reflexivity.
Defined.

(** C6, as the specification states it, fails: with the negative target
    -1 the function raises nothing and returns the factors (-2, -2). *)
Lemma resize_factors_negative_target_returns :
  -1 <= 0 /\
  calculate_resize_factors 2 2 (-1) = inr (-2 # 1, -2 # 1) /\
  ~ (forall x y t : Q, t <= 0 ->
       exists e, calculate_resize_factors x y t = inl e).
Proof.
  split; [discriminate|]. split; [reflexivity|].
  intro H. destruct (H 2 2 (-1)) as [e He]; discriminate.
Qed.

(** C6, amended. [calculate_resize_factors] validates nothing itself: it
    fails exactly when the target pixel size is 0, for all widths and
    heights, and then with the [ZeroDivisionError] of the division; for
    every other target, the negative ones included, it returns the two
    quotients. *)
Theorem resize_factors_fail_only_at_zero (x y t : Q) :
  (t == 0 -> calculate_resize_factors x y t = inl Py.ZeroDivisionError) /\
  (~ t == 0 -> calculate_resize_factors x y t = inr (x / t, y / t)).
Proof.
  unfold calculate_resize_factors. split; intro H.
  - now rewrite truediv_zero.
  - now rewrite !truediv_nonzero.
Qed.

Lemma resize_factors_fail_only_at_zero_witness :
  calculate_resize_factors 2 2 0 = inl Py.ZeroDivisionError /\
  calculate_resize_factors 2 2 (-4) = inr (2 / -4, 2 / -4).
Proof.
  split.
  - apply (proj1 (resize_factors_fail_only_at_zero 2 2 0)). reflexivity.
  - apply (proj2 (resize_factors_fail_only_at_zero 2 2 (-4))). discriminate.
Defined.

Section Dimensions.

Variable interpolate : ndarray Q -> nat -> nat -> list Q.


End Dimensions.

End Resampler.

(** ** RasterSource *)

Section RasterSource.

Import Np Tiftool.

Lemma steps_of_depth_nonzero (t : Gdal.GDALDataType) :
  ~ inject_Z (2 ^ Gdal.GetDataTypeSize t - 1) == 0.
Proof. destruct t; discriminate. Qed.

(** C9. [get_geotiff_data] returns as step distance the quotient of the
    observed range of the band, the difference of its largest and its
    smallest sample, by 2^color_depth - 1; on a raster whose samples are
    all equal that distance is 0. *)
Theorem source_color_step_distance
  (gdal_Open : string -> option Gdal.Dataset) (path : string) (ds : Gdal.Dataset) :
  gdal_Open path = Some ds ->
  samples (Gdal.ReadAsArray ds) <> [] ->
  let img := Gdal.ReadAsArray ds in
  let color_depth := Gdal.GetDataTypeSize (Gdal.DataType ds) in
  exists observed_min observed_max step : Q,
    In observed_min (samples img) /\
    Forall (fun x => observed_min <= x) (samples img) /\
    In observed_max (samples img) /\
    Forall (fun x => x <= observed_max) (samples img) /\
    get_geotiff_data gdal_Open path =
      inr (img, color_depth,
           Qabs (Gdal.gt_1 (Gdal.GetGeoTransform ds)),
           Qabs (Gdal.gt_5 (Gdal.GetGeoTransform ds)),
           step) /\
    step == (observed_max - observed_min) / inject_Z (2 ^ color_depth - 1) /\
    (observed_max == observed_min -> step == 0).
Proof.
  intros Hopen Hne img color_depth.
  destruct (amin_nonempty img Hne) as [lo Hlo].
  destruct (amax_nonempty img Hne) as [hi Hhi].
  destruct (amin_spec img lo Hlo) as [Lin Lall].
  destruct (amax_spec img hi Hhi) as [Hin Hall].
  exists lo, hi, ((hi - lo) / inject_Z (2 ^ color_depth - 1)).
  repeat (split; [assumption|]).
  split; [|split; [reflexivity|]].
  - unfold get_geotiff_data. rewrite Hopen.
    unfold Gdal.ComputeRasterMinMax. fold img. rewrite Hlo, Hhi.
    cbn [Py.bind Py.ret].
    rewrite truediv_nonzero by apply steps_of_depth_nonzero.
    reflexivity.
  - intro E. rewrite E. unfold Qminus. rewrite Qplus_opp_r.
    unfold Qdiv. apply Qmult_0_l.
Qed.

Lemma source_color_step_distance_witness :
  exists observed_min observed_max step : Q,
    In observed_min (samples Inputs.constant_5) /\
    Forall (fun x => observed_min <= x) (samples Inputs.constant_5) /\
    In observed_max (samples Inputs.constant_5) /\
    Forall (fun x => x <= observed_max) (samples Inputs.constant_5) /\
    get_geotiff_data Inputs.open_constant "dem.tif" =
      inr (Inputs.constant_5, 16%Z, Qabs 1, Qabs (-1), step) /\
    step == (observed_max - observed_min) / inject_Z (2 ^ 16 - 1) /\
    (observed_max == observed_min -> step == 0).
Proof.
  apply (source_color_step_distance Inputs.open_constant "dem.tif"
           Inputs.constant_dataset eq_refl).
  discriminate.
Defined.

End RasterSource.

(** ** Normalizer *)

Section Normalizer.

Import Np Tiftool.

(** On a proper range the number of steps is finite and positive. *)
Lemma color_range_positive (lo hi : Q) (t : npfloat) (b : bool) :
  lo < hi ->
  exists cr : Q, color_range lo hi t b = Fin cr /\ 0 < cr /\
    (forall q, b = false -> t = Fin q -> 0 < q -> q < 65535 ->
       cr = (hi - lo) / q).
Proof.
  intro Hr. unfold color_range.
  destruct (negb b && flt (Fin 0) t && flt t (Fin 65535)) eqn:E.
  - apply andb_prop in E as [E E2]. apply andb_prop in E as [Eb E1].
    destruct t as [q| | |]; try discriminate.
    cbn [flt] in E1, E2. apply Qltb_lt in E1, E2.
    exists ((hi - lo) / q). cbn [fdiv].
    rewrite Qeq_bool_false by lra.
    split; [reflexivity|]. split.
    + apply Qlt_shift_div_l; lra.
    + intros q' _ Hq _ _. injection Hq as ->. reflexivity.
  - exists 65535. split; [reflexivity|]. split; [reflexivity|].
    intros q -> -> H0 H1. exfalso.
    cbn [negb andb flt] in E.
    apply Qltb_lt in H0, H1. rewrite H0, H1 in E. discriminate.
Qed.

(** C10. On a raster with a proper range, for every requested step
    distance and either mode, the array returned by [normalize_to_uint16]
    has the shape of its input: as many rows, as many columns and as many
    samples. *)
Theorem normalize_preserves_shape
  (img : ndarray Q) (target : npfloat) (binary : bool) (img_min img_max : Q) :
  amin img = inr img_min -> amax img = inr img_max -> img_min < img_max ->
  exists (out : ndarray (option Z)) (step : npfloat),
    normalize_to_uint16 img target binary = inr (out, step) /\
    nrows out = nrows img /\
    ncols out = ncols img /\
    List.length (samples out) = List.length (samples img) /\
    (well_shaped img -> well_shaped out).
Proof.
  intros Hlo Hhi _.
  rewrite (normalize_to_uint16_eq img target binary _ _ Hlo Hhi).
  eexists. eexists. split; [reflexivity|].
  unfold well_shaped, amap. cbn [nrows ncols samples].
  rewrite length_map. repeat split. trivial.
Qed.

Lemma normalize_preserves_shape_witness :
  exists (out : ndarray (option Z)) (step : npfloat),
    normalize_to_uint16 Inputs.ramp (Fin 0) false = inr (out, step) /\
    nrows out = 4%nat /\ ncols out = 4%nat /\
    List.length (samples out) = 16%nat /\
    (well_shaped Inputs.ramp -> well_shaped out).
Proof.
  apply (normalize_preserves_shape Inputs.ramp (Fin 0) false 1000 4000);
    reflexivity.
Defined.

End Normalizer.

(** ** Normalizer: the values of the output *)

Section OutputValues.

Import Np Tiftool.

Lemma binary_level_cast (r : Z) :
  r = 0%Z \/ r = 1%Z ->
  astype_uint16 (Fin (inject_Z r * 65535 + (65535 + - 65535) / 2)) =
    Some (r * 65535)%Z.
Proof. intros [-> | ->]; reflexivity. Qed.



(** Where the number of steps does not exceed 65535, every value that is
    cast lies in the 16-bit range. *)
Lemma normalize_float_in_range
  (img : ndarray Q) (target : npfloat) (binary : bool) (img_min img_max steps : Q) :
  amin img = inr img_min -> amax img = inr img_max -> img_min < img_max ->
  color_range img_min img_max target binary = Fin steps -> steps <= 65535 ->
  exists (out : ndarray npfloat) (step : npfloat),
    normalize_float img target binary = inr (out, step) /\
    Forall (fun p => exists v : Q, p = Fin v /\ 0 <= v /\ v <= 65535) (samples out).
Proof.
  intros Hlo Hhi Hr Ecr Hfit.
  destruct (amin_spec img _ Hlo) as [_ Lall].
  destruct (amax_spec img _ Hhi) as [_ Hall].
  rewrite Forall_forall in Lall, Hall.
  rewrite (normalize_float_eq img target binary _ _ Hlo Hhi).
  eexists. eexists. split; [reflexivity|].
  unfold amap. cbn [samples].
  apply Forall_forall. intros p Hp.
  apply in_map_iff in Hp as (x & <- & Hx).
  destruct (unit_position x _ _ (Lall x Hx) (Hall x Hx) Hr) as [U0 U1].
  destruct binary.
  - change (color_range img_min img_max target true) with (Fin 65535).
    rewrite (pixel_float_binary _ _ _ (Lall x Hx) (Hall x Hx) Hr).
    eexists. split; [reflexivity|].
    destruct (Qrint_unit _ U0 U1) as [E | E]; rewrite E; split; discriminate.
  - destruct (color_range_positive img_min img_max target false Hr)
      as (cr & Ecr' & Hpos & _).
    rewrite Ecr in Ecr'. injection Ecr' as <-. rewrite Ecr.
    rewrite (pixel_float_continuous _ _ _ _ (Lall x Hx) (Hall x Hx) Hr)
      by lra.
    eexists. split; [reflexivity|].
    set (u := (x - img_min) / (img_max - img_min)) in *. clearbody u.
    assert (P0 : 0 <= u * steps) by (apply Qmult_le_0_compat; lra).
    assert (P1 : u * steps <= 1 * steps) by (apply Qmult_le_compat_r; lra).
    set (p := u * steps) in *. clearbody p.
    assert (E : (65535 + - steps) / 2 == (65535 + - steps) * (1 # 2)) by field.
    rewrite E. split; lra.
Qed.

(** C2, at the failing input: on the raster (0, 131070) with the requested
    step distance 1 in continuous mode, the number of steps is 131070 and
    the two values that are cast are -32767.5 and 98302.5, both outside
    [0, 65535]; the cast of neither is defined. *)
Theorem normalize_wide_range_outside_uint16 :
  amin Inputs.wide = inr 0 /\ amax Inputs.wide = inr 131070 /\
  exists v0 v1 step : Q,
    normalize_float Inputs.wide (Fin 1) false =
      inr (mk_ndarray 1 2 [Fin v0; Fin v1], Fin step) /\
    v0 == - (65535 # 2) /\ v0 < 0 /\
    v1 == 196605 # 2 /\ 65535 < v1 /\
    normalize_to_uint16 Inputs.wide (Fin 1) false =
      inr (mk_ndarray 1 2 [None; None], Fin step).
Proof.
  split; [reflexivity|]. split; [reflexivity|].
  eexists. eexists. eexists.
  split; [vm_compute; reflexivity|].
  repeat split.
Qed.

(** A constant raster is not refused: every value that is cast is [NaN],
    in both modes and for every requested step distance. *)
Lemma pixel_float_degenerate (lo hi x : Q) (cr : npfloat) (binary : bool) :
  hi == lo -> x == lo -> pixel_float lo hi cr binary x = NaN.
Proof.
  intros Hr Hx. unfold pixel_float. cbn [fdiv].
  rewrite Qeq_bool_true by lra.
  assert (E : signed_inf (x - lo) = NaN).
  { unfold signed_inf.
    assert (E0 : Qltb 0 (x - lo) = false) by (apply Qltb_ge; lra).
    assert (E1 : Qltb (x - lo) 0 = false) by (apply Qltb_ge; lra).
    now rewrite E0, E1. }
  rewrite E. destruct binary, cr; reflexivity.
Qed.

Lemma normalize_float_constant
  (img : ndarray Q) (target : npfloat) (binary : bool) (c : Q) :
  samples img <> [] -> Forall (fun x => x == c) (samples img) ->
  exists step : npfloat,
    normalize_float img target binary = inr (amap (fun _ => NaN) img, step).
Proof.
  intros Hne Hc.
  destruct (amin_nonempty img Hne) as [lo Hlo].
  destruct (amax_nonempty img Hne) as [hi Hhi].
  destruct (amin_spec img lo Hlo) as [Lin _].
  destruct (amax_spec img hi Hhi) as [Hin _].
  rewrite Forall_forall in Hc.
  rewrite (normalize_float_eq img target binary _ _ Hlo Hhi).
  eexists. f_equal. f_equal. unfold amap. f_equal.
  apply map_ext_in. intros x Hx.
  apply pixel_float_degenerate.
  - rewrite (Hc _ Lin), (Hc _ Hin). reflexivity.
  - rewrite (Hc _ Lin), (Hc _ Hx). reflexivity.
Qed.

(** C1, at the failing input: on the raster whose every sample is 5.0,
    [normalize_to_uint16] raises nothing, in continuous and in binary mode;
    it returns an array, every value that is cast is [NaN] and no cast is
    defined. *)
Theorem normalize_constant_5_returns :
  amin Inputs.constant_5 = inr 5 /\ amax Inputs.constant_5 = inr 5 /\
  normalize_float Inputs.constant_5 (Fin 0) false =
    inr (mk_ndarray 2 2 [NaN; NaN; NaN; NaN], Fin (0 / 65535)) /\
  normalize_float Inputs.constant_5 (Fin 0) true =
    inr (mk_ndarray 2 2 [NaN; NaN; NaN; NaN], Fin (0 / 65535)) /\
  normalize_float Inputs.constant_5 (Fin 1) false =
    inr (mk_ndarray 2 2 [NaN; NaN; NaN; NaN], NaN) /\
  normalize_to_uint16 Inputs.constant_5 (Fin 0) false =
    inr (mk_ndarray 2 2 [None; None; None; None], Fin (0 / 65535)) /\
  normalize_to_uint16 Inputs.constant_5 (Fin 0) true =
    inr (mk_ndarray 2 2 [None; None; None; None], Fin (0 / 65535)) /\
  normalize_to_uint16 Inputs.constant_5 (Fin 1) false =
    inr (mk_ndarray 2 2 [None; None; None; None], NaN).
Proof. repeat split. Qed.

End OutputValues.


(** ** The output path *)

Section OutputPath.

Import Script.

Local Open Scope string_scope.

Lemma rsplit1_without_separator (sep : ascii) (s : string) :
  occurs sep s = false -> rsplit1 sep s = (s, None).
Proof.
  induction s as [|c rest IH]; intro H; [reflexivity|].
  cbn [occurs] in H. apply orb_false_elim in H as [Hc Hrest].
  cbn [rsplit1]. rewrite (IH Hrest), Hc. reflexivity.
Qed.

Lemma rsplit1_at_last_separator (sep : ascii) (stem ext : string) :
  occurs sep ext = false ->
  rsplit1 sep (stem ++ String sep ext) = (stem, Some ext).
Proof.
  intro H. induction stem as [|c stem IH].
  - cbn [append rsplit1]. rewrite (rsplit1_without_separator _ _ H).
    now rewrite Ascii.eqb_refl.
  - cbn [append rsplit1]. now rewrite IH.
Qed.

(** Every text either has no separator or splits at its last one. *)
Lemma rsplit1_decompose (sep : ascii) (s : string) :
  (occurs sep s = false /\ rsplit1 sep s = (s, None)) \/
  (exists stem ext, s = stem ++ String sep ext /\ occurs sep ext = false /\
                    rsplit1 sep s = (stem, Some ext)).
Proof.
  induction s as [|c rest IH]; [now left|].
  destruct IH as [[Hno E] | (stem & ext & -> & Hext & E)].
  - destruct (Ascii.eqb c sep) eqn:Hc.
    + right. exists "", rest. apply Ascii.eqb_eq in Hc. subst c.
      repeat split; [exact Hno|].
      cbn [rsplit1]. now rewrite E, Ascii.eqb_refl.
    + left. cbn [occurs rsplit1]. now rewrite Hc, Hno, E.
  - right. exists (String c stem), ext. repeat split; [exact Hext|].
    cbn [rsplit1]. now rewrite E.
Qed.

(** X1. The output path of [main] replaces the text after the last dot of
    the input path by png, wherever that dot stands (in the file name or
    in a directory name); a path without any dot gets .png appended; and
    every path is of one of the two kinds. *)
Theorem output_path_replaces_extension :
  (forall stem ext : string,
     occurs "." ext = false -> output_path (stem ++ "." ++ ext) = stem ++ ".png") /\
  (forall path : string,
     occurs "." path = false -> output_path path = path ++ ".png") /\
  (forall path : string,
     occurs "." path = true ->
     exists stem ext, path = stem ++ "." ++ ext /\ occurs "." ext = false).
Proof.
  split; [|split].
  - intros stem ext H. unfold output_path.
    change ("." ++ ext) with (String "." ext).
    now rewrite (rsplit1_at_last_separator _ stem ext H).
  - intros path H. unfold output_path.
    now rewrite (rsplit1_without_separator _ path H).
  - intros path H.
    destruct (rsplit1_decompose "." path) as [[Hno _] | (stem & ext & E & Hext & _)].
    + congruence.
    + exists stem, ext. split; [exact E | exact Hext].
Qed.

Lemma output_path_replaces_extension_witness :
  output_path ("maps/dem.v2" ++ "." ++ "tif") = "maps/dem.v2" ++ ".png" /\
  output_path "dem" = "dem" ++ ".png".
Proof.
  split.
  - apply (proj1 output_path_replaces_extension "maps/dem.v2" "tif"). reflexivity.
  - apply (proj1 (proj2 output_path_replaces_extension) "dem"). reflexivity.
Defined.

(** X2. The output path is a fixed point of the renaming: computed from
    an output path, it is that path again, so a run on its own result
    writes over it. *)
Theorem output_path_idempotent (path : string) :
  output_path (output_path path) = output_path path.
Proof.
  unfold output_path at 2 3.
  set (stem := fst (rsplit1 "." path)).
  unfold output_path.
  change (stem ++ ".png") with (stem ++ String "." "png").
  now rewrite (rsplit1_at_last_separator "." stem "png" eq_refl).
Qed.

End OutputPath.

(** ** Normalizer: failure, casts and the placement of the output range *)

Section NormalizerMore.

Import Np Tiftool.





(** X3. [normalize_to_uint16] raises in one case only, on an array
    without samples, where the reduction [np.min] raises [ValueError];
    on every other array, a constant one included, it returns. *)
Theorem normalize_raises_only_on_empty
  (img : ndarray Q) (target : npfloat) (binary : bool) (e : Py.exn) :
  normalize_to_uint16 img target binary = inl e <->
  samples img = [] /\ e = Py.ValueError.
Proof.
  split.
  - intro H. destruct (samples img) as [|x l] eqn:E.
    + split; [reflexivity|].
      unfold normalize_to_uint16, normalize_float, amin in H.
      rewrite E in H. cbn in H. congruence.
    + exfalso.
      assert (Hne : samples img <> []) by (rewrite E; discriminate).
      destruct (amin_nonempty img Hne) as [lo Hlo].
      destruct (amax_nonempty img Hne) as [hi Hhi].
      rewrite (normalize_to_uint16_eq img target binary lo hi Hlo Hhi) in H.
      discriminate.
  - intros [E ->].
    unfold normalize_to_uint16, normalize_float, amin. rewrite E. reflexivity.
Qed.




End NormalizerMore.

(** ** Normalizer: the end points of the full range *)

Section NormalizerOrder.

Import Np Tiftool.





End NormalizerOrder.

(** ** Resampler: sizes *)

Section ResamplerSizes.

Import Np Tiftool.

Variable interpolate : ndarray Q -> nat -> nat -> list Q.

Lemma dimension_nonneg (n : nat) (f : Q) : 0 <= f -> 0 <= inject_Z (Z.of_nat n) * f.
Proof.
  intro Hf. apply Qmult_le_0_compat; [|exact Hf].
  change 0 with (inject_Z 0). rewrite <- Zle_Qle. lia.
Qed.

(** With non-negative factors, [resize_image] asks [cv2.resize] for the
    integer parts of the scaled dimensions. *)
Lemma resize_image_floor (img : ndarray Q) (fx fy : Q) :
  0 <= fx -> 0 <= fy ->
  resize_image interpolate img fx fy =
    Cv2.resize interpolate img
      (Qfloor (inject_Z (Z.of_nat (ncols img)) * fx),
       Qfloor (inject_Z (Z.of_nat (nrows img)) * fy)).
Proof.
  intros Hx Hy. unfold resize_image.
  now rewrite !int_nonneg_floor by now apply dimension_nonneg.
Qed.

Lemma cv2_resize_positive (img : ndarray Q) (w h : Z) :
  (0 < w)%Z -> (0 < h)%Z ->
  exists out, Cv2.resize interpolate img (w, h) = inr out /\
              Z.of_nat (ncols out) = w /\ Z.of_nat (nrows out) = h.
Proof.
  intros Hw Hh. unfold Cv2.resize.
  apply Z.ltb_lt in Hw as Ew. apply Z.ltb_lt in Hh as Eh.
  rewrite Ew, Eh. cbn [andb]. eexists. split; [reflexivity|].
  cbn [ncols nrows]. split; apply Z2Nat.id; lia.
Qed.

Lemma cv2_resize_returns (img out : ndarray Q) (w h : Z) :
  Cv2.resize interpolate img (w, h) = inr out ->
  (0 < w)%Z /\ (0 < h)%Z /\
  Z.of_nat (ncols out) = w /\ Z.of_nat (nrows out) = h.
Proof.
  unfold Cv2.resize.
  destruct (0 <? w)%Z eqn:Ew; destruct (0 <? h)%Z eqn:Eh; cbn [andb];
    try discriminate.
  apply Z.ltb_lt in Ew, Eh. intro H. injection H as <-.
  cbn [ncols nrows]. repeat split; try assumption; apply Z2Nat.id; lia.
Qed.


(** X12. A resize that succeeds with factors of at most 1 never enlarges
    the raster, and with factors of at least 1 never shrinks it, in each
    direction separately. *)
Theorem resize_image_size_direction (img out : ndarray Q) (fx fy : Q) :
  0 < fx -> 0 < fy ->
  resize_image interpolate img fx fy = inr out ->
  (fx <= 1 -> (ncols out <= ncols img)%nat) /\
  (1 <= fx -> (ncols img <= ncols out)%nat) /\
  (fy <= 1 -> (nrows out <= nrows img)%nat) /\
  (1 <= fy -> (nrows img <= nrows out)%nat).
Proof.
  intros Hx Hy H.
  rewrite resize_image_floor in H by lra.
  apply cv2_resize_returns in H as (_ & _ & Ec & Er).
  assert (Wn : 0 <= inject_Z (Z.of_nat (ncols img))).
  { change 0 with (inject_Z 0). rewrite <- Zle_Qle. lia. }
  assert (Hn : 0 <= inject_Z (Z.of_nat (nrows img))).
  { change 0 with (inject_Z 0). rewrite <- Zle_Qle. lia. }
  assert (Fc := Qfloor_Z (Z.of_nat (ncols img))).
  assert (Fr := Qfloor_Z (Z.of_nat (nrows img))).
  repeat split; intro Hf.
  - assert (Qfloor (inject_Z (Z.of_nat (ncols img)) * fx)
            <= Qfloor (inject_Z (Z.of_nat (ncols img))))%Z
      by (apply Qfloor_resp_le; nra).
    lia.
  - assert (Qfloor (inject_Z (Z.of_nat (ncols img)))
            <= Qfloor (inject_Z (Z.of_nat (ncols img)) * fx))%Z
      by (apply Qfloor_resp_le; nra).
    lia.
  - assert (Qfloor (inject_Z (Z.of_nat (nrows img)) * fy)
            <= Qfloor (inject_Z (Z.of_nat (nrows img))))%Z
      by (apply Qfloor_resp_le; nra).
    lia.
  - assert (Qfloor (inject_Z (Z.of_nat (nrows img)))
            <= Qfloor (inject_Z (Z.of_nat (nrows img)) * fy))%Z
      by (apply Qfloor_resp_le; nra).
    lia.
Qed.



(** X15. Resampling a raster that has a pixel to the pixel size it
    already has (square pixels) returns a raster of the same shape. *)
Theorem resample_same_size_keeps_shape (img : ndarray Q) (size : Q) :
  (0 < nrows img)%nat -> (0 < ncols img)%nat -> 0 < size ->
  exists out,
    Script.resample interpolate img size size (Fin size) = inr out /\
    ncols out = ncols img /\ nrows out = nrows img.
Proof.
  intros Hr Hc Hs.
  unfold Script.resample, calculate_resize_factors.
  rewrite !truediv_nonzero by lra. cbn [Py.bind Py.ret].
  assert (F : 0 <= size / size) by (apply Qle_shift_div_l; lra).
  assert (E : size / size == 1) by (field; lra).
  rewrite (resize_image_floor img _ _ F F).
  rewrite (Qfloor_inject_eq _ (Z.of_nat (ncols img))) by (rewrite E; ring).
  rewrite (Qfloor_inject_eq _ (Z.of_nat (nrows img))) by (rewrite E; ring).
  destruct (cv2_resize_positive img (Z.of_nat (ncols img)) (Z.of_nat (nrows img)))
    as (out & Eo & Ec & En); [lia | lia |].
  exists out. split; [exact Eo|]. split; lia.
Qed.

End ResamplerSizes.

Section ResamplerSizesWitnesses.

Import Np Tiftool.


Lemma resize_image_size_direction_witness :
  let out := Np.mk_ndarray 2 12 (Inputs.nearest Inputs.ramp 2 12) in
  (3 <= 1 -> (Np.ncols out <= Np.ncols Inputs.ramp)%nat) /\
  (1 <= 3 -> (Np.ncols Inputs.ramp <= Np.ncols out)%nat) /\
  ((1 # 2) <= 1 -> (Np.nrows out <= Np.nrows Inputs.ramp)%nat) /\
  (1 <= (1 # 2) -> (Np.nrows Inputs.ramp <= Np.nrows out)%nat).
Proof.
  apply (resize_image_size_direction Inputs.nearest Inputs.ramp _ 3 (1 # 2));
    reflexivity.
Defined.


Lemma resample_same_size_keeps_shape_witness :
  exists out,
    Script.resample Inputs.nearest Inputs.ramp 2 2 (Np.Fin 2) = inr out /\
    Np.ncols out = 4%nat /\ Np.nrows out = 4%nat.
Proof.
  apply (resample_same_size_keeps_shape Inputs.nearest Inputs.ramp 2);
    cbn; lia || reflexivity.
Defined.

End ResamplerSizesWitnesses.

(** ** RasterSource: what is returned, and its use as a request *)

Section RasterSourceMore.

Import Np Tiftool.

Variable gdal_Open : string -> option Gdal.Dataset.

Lemma data_type_size_bounds (t : Gdal.GDALDataType) :
  (8 <= Gdal.GetDataTypeSize t <= 128)%Z.
Proof. destruct t; cbn; lia. Qed.

Lemma steps_of_depth_positive (t : Gdal.GDALDataType) :
  0 < inject_Z (2 ^ Gdal.GetDataTypeSize t - 1).
Proof. destruct t; reflexivity. Qed.

(** What [get_geotiff_data] returns, in terms of the dataset and of the
    extrema of its band. *)
Lemma get_geotiff_data_returns
  (path : string) (img : ndarray Q) (d : Z) (pw ph s : Q) :
  get_geotiff_data gdal_Open path = inr (img, d, pw, ph, s) ->
  exists ds lo hi,
    gdal_Open path = Some ds /\
    img = Gdal.ReadAsArray ds /\
    d = Gdal.GetDataTypeSize (Gdal.DataType ds) /\
    pw = Qabs (Gdal.gt_1 (Gdal.GetGeoTransform ds)) /\
    ph = Qabs (Gdal.gt_5 (Gdal.GetGeoTransform ds)) /\
    amin img = inr lo /\ amax img = inr hi /\
    s = (hi - lo) / inject_Z (2 ^ d - 1).
Proof.
  unfold get_geotiff_data.
  destruct (gdal_Open path) as [ds|]; [|discriminate].
  unfold Gdal.ComputeRasterMinMax.
  destruct (amin (Gdal.ReadAsArray ds)) as [e|lo] eqn:Hlo; [discriminate|].
  destruct (amax (Gdal.ReadAsArray ds)) as [e|hi] eqn:Hhi; [discriminate|].
  cbn [Py.bind Py.ret].
  rewrite truediv_nonzero by apply steps_of_depth_nonzero.
  cbn [Py.bind Py.ret]. intro H. injection H as <- <- <- <- <-.
  exists ds, lo, hi. repeat split; assumption.
Qed.

Lemma extrema_ordered (img : ndarray Q) (lo hi : Q) :
  amin img = inr lo -> amax img = inr hi -> lo <= hi.
Proof.
  intros Hlo Hhi.
  destruct (amin_spec img lo Hlo) as [Lin _].
  destruct (amax_spec img hi Hhi) as [_ Hall].
  rewrite Forall_forall in Hall. now apply Hall.
Qed.

(** X16. Whatever the signs of the coefficients of the affine transform
    (the height of a north-up raster is negative), the pixel width and
    height returned by [get_geotiff_data] are not negative; neither is the
    colour step distance; the colour depth is between 8 and 128 bits and
    the array is the band of the dataset that was opened. *)
Theorem get_geotiff_data_nonnegative
  (path : string) (img : ndarray Q) (color_depth : Z)
  (pixel_width pixel_height color_step_dist : Q) :
  get_geotiff_data gdal_Open path =
    inr (img, color_depth, pixel_width, pixel_height, color_step_dist) ->
  0 <= pixel_width /\ 0 <= pixel_height /\ 0 <= color_step_dist /\
  (8 <= color_depth <= 128)%Z /\
  exists ds, gdal_Open path = Some ds /\ img = Gdal.ReadAsArray ds.
Proof.
  intro H.
  apply get_geotiff_data_returns in H
    as (ds & lo & hi & Ho & Ei & Ed & Ew & Eh & Hlo & Hhi & Es).
  subst pixel_width pixel_height color_step_dist color_depth.
  split; [apply Qabs_nonneg|]. split; [apply Qabs_nonneg|].
  split.
  - apply Qle_shift_div_l; [apply steps_of_depth_positive|].
    assert (L := extrema_ordered img lo hi Hlo Hhi). lra.
  - split; [apply data_type_size_bounds|]. now exists ds.
Qed.

End RasterSourceMore.

Section RasterSourceMoreWitnesses.

Import Np Tiftool.

Local Open Scope string_scope.

Lemma get_geotiff_data_nonnegative_witness :
  0 <= 2 /\ 0 <= 2 /\ 0 <= (4000 - 1000) / inject_Z (2 ^ 16 - 1) /\
  (8 <= 16 <= 128)%Z /\
  exists ds, Inputs.open_ramp "dem.tif" = Some ds /\
             Inputs.ramp = Gdal.ReadAsArray ds.
Proof.
  apply (get_geotiff_data_nonnegative Inputs.open_ramp "dem.tif" Inputs.ramp
           16 2 2 ((4000 - 1000) / inject_Z (2 ^ 16 - 1))).
  reflexivity.
Defined.

End RasterSourceMoreWitnesses.

(** ** The script: what a run prints, reads and writes *)

Section Run.

Import Np Tiftool Script.

Section Events.

Variable P : event -> Prop.

Lemma emits_ret {A : Type} (a : A) : emits P (io_ret a).
Proof.
  intros w w' r H. injection H as <- <-.
  exists []. split; [now rewrite app_nil_r | constructor].
Qed.

Lemma emits_lift {A : Type} (x : Py.result A) : emits P (lift x).
Proof.
  intros w w' r H. injection H as <- <-.
  exists []. split; [now rewrite app_nil_r | constructor].
Qed.

Lemma emits_emit (e : event) : P e -> emits P (emit e).
Proof.
  intros He w w' r H. injection H as <- <-.
  exists [e]. split; [reflexivity | now repeat constructor].
Qed.

Lemma emits_input (stdin : nat -> string) (prompt : string) :
  P (Prompt prompt) -> emits P (input stdin prompt).
Proof.
  intros He w w' r H. injection H as <- <-.
  exists [Prompt prompt]. split; [reflexivity | now repeat constructor].
Qed.

Lemma emits_bind {A B : Type} (m : io A) (k : A -> io B) :
  emits P m -> (forall a, emits P (k a)) -> emits P (io_bind m k).
Proof.
  intros Hm Hk w w' r H. unfold io_bind in H.
  destruct (m w) as [w1 [e | a]] eqn:E.
  - injection H as <- <-. exact (Hm w w1 _ E).
  - destruct (Hm w w1 _ E) as (d1 & E1 & F1).
    destruct (Hk a w1 w' r H) as (d2 & E2 & F2).
    exists (d1 ++ d2). split.
    + now rewrite E2, E1, app_assoc.
    + apply Forall_app. now split.
Qed.

Lemma emits_if {A : Type} (c : bool) (m1 m2 : io A) :
  emits P m1 -> emits P m2 -> emits P (if c then m1 else m2).
Proof. now destruct c. Qed.

Variable Q : event -> Prop.

Lemma emits_then_bind {A B : Type} (m : io A) (k : A -> io B) :
  emits P m -> (forall a, emits_then P Q (k a)) ->
  emits_then P Q (io_bind m k).
Proof.
  intros Hm Hk w w' r H. unfold io_bind in H.
  destruct (m w) as [w1 [e | a]] eqn:E.
  - injection H as <- <-. exact (Hm w w1 _ E).
  - destruct (Hm w w1 _ E) as (d1 & E1 & F1).
    specialize (Hk a w1 w' r H). destruct r as [e | b].
    + destruct Hk as (d2 & E2 & F2).
      exists (d1 ++ d2). split.
      * now rewrite E2, E1, app_assoc.
      * apply Forall_app. now split.
    + destruct Hk as (d2 & e & E2 & F2 & Qe).
      exists (d1 ++ d2), e. split; [|split].
      * now rewrite E2, E1, !app_assoc.
      * apply Forall_app. now split.
      * exact Qe.
Qed.

Lemma emits_then_emit (e : event) : Q e -> emits_then P Q (emit e).
Proof.
  intros He w w' r H. injection H as <- <-.
  exists [], e. split; [reflexivity|]. split; [constructor | exact He].
Qed.

(** The report prints lines whose first argument is one of its five
    labels, the last one in continuous mode only. *)
Lemma emits_show_info
  (path : string) (depth width height dist : pyobj) (binary : bool) :
  P (Print [PStr "File path:"; PStr path]) ->
  P (Print [PStr "Color depth:"; depth; PStr "bit"]) ->
  P (Print [PStr "Pixel width:"; width; PStr "units"]) ->
  P (Print [PStr "Pixel height:"; height; PStr "units"]) ->
  (binary = false ->
   P (Print [PStr "Distance covered by one color step:"; dist; PStr "units"])) ->
  emits P (show_info path depth width height dist binary).
Proof.
  intros H1 H2 H3 H4 H5. unfold show_info, print.
  repeat (apply emits_bind; [now apply emits_emit | intros _]).
  destruct binary; cbn [negb].
  - apply emits_ret.
  - apply emits_emit. now apply H5.
Qed.

End Events.

Variable gdal_Open : string -> option Gdal.Dataset.
Variable interpolate : ndarray Q -> nat -> nat -> list Q.
Variable GaussianBlur : ndarray Q -> Z * Z -> Z -> Py.result (ndarray Q).
Variable float_of_string : string -> Py.result npfloat.
Variable int_of_string : string -> Py.result Z.
Variable stdin : nat -> string.

Local Notation "'run'" :=
  (main gdal_Open interpolate GaussianBlur float_of_string int_of_string stdin).

(** The events of [main], for a property [P] of the events before the
    last one and a property [Q] of the call of [cv2.imwrite]. *)
Lemma main_events (P Q : event -> Prop)
  (path : string) (size dist : pyobj) (blur binary : bool) :
  (forall args, (binary = true -> is_step_report (Print args) = false) ->
                P (Print args)) ->
  (forall text, P (Prompt text)) ->
  (forall img, Q (Imwrite (output_path path) img)) ->
  emits_then P Q (run path size dist blur binary).
Proof.
  intros Hprint Hprompt Hwrite.
  assert (Hp : forall args, is_step_report (Print args) = false -> P (Print args)).
  { intros args H. apply Hprint. intros _. exact H. }
  unfold main, print, imwrite.
  apply emits_then_bind; [apply emits_lift|].
  intros [[[[img d] pw] ph] s].
  apply emits_then_bind; [apply emits_emit; now apply Hp|]. intros _.
  apply emits_then_bind.
  { apply emits_show_info; try (apply Hp; reflexivity).
    intros ->. apply Hprint. discriminate. }
  intros _.
  apply emits_then_bind; [apply emits_emit; now apply Hp|]. intros _.
  apply emits_then_bind.
  { apply emits_if; [|apply emits_ret].
    apply emits_bind; [apply emits_lift|]. intros sz.
    apply emits_bind; [apply emits_lift|]. intros img'.
    apply emits_ret. }
  intros [img1 size1].
  apply emits_then_bind.
  { apply emits_if; [|apply emits_ret].
    apply emits_bind; [apply emits_emit; now apply Hp|]. intros _.
    apply emits_bind; [apply emits_input; apply Hprompt|]. intros kt.
    apply emits_bind; [apply emits_lift|]. intros ks.
    apply emits_bind; [apply emits_input; apply Hprompt|]. intros it.
    apply emits_bind; [apply emits_lift|]. intros bi.
    apply emits_lift. }
  intros img2.
  apply emits_then_bind; [apply emits_lift|]. intros t.
  apply emits_then_bind; [apply emits_lift|]. intros [out step].
  apply emits_then_bind; [apply emits_emit; now apply Hp|]. intros _.
  apply emits_then_bind; [apply emits_emit; now apply Hp|]. intros _.
  apply emits_then_bind.
  { apply emits_show_info; try (apply Hp; reflexivity).
    intros ->. apply Hprint. discriminate. }
  intros _.
  apply emits_then_emit. apply Hwrite.
Qed.

Lemma writes_app (t u : list event) : writes (t ++ u) = writes t ++ writes u.
Proof. unfold writes. apply filter_app. Qed.

Lemma writes_none (d : list event) :
  Forall (fun e => is_imwrite e = false) d -> writes d = [].
Proof.
  induction 1 as [|e d He _ IH]; [reflexivity|].
  unfold writes in *. cbn [List.filter]. now rewrite He.
Qed.

(** X18. A run of [main] writes a file only as its very last step: when
    it raises, whatever the cause, no call of [cv2.imwrite] has been made;
    when it returns, exactly one has been made, it is the last event of
    the run and its path is the output path. *)
Theorem main_writes_last_or_never
  (path : string) (size dist : pyobj) (blur binary : bool)
  (w : world) (r : Py.result unit) :
  run path size dist blur binary start = (w, r) ->
  match r with
  | inl _ => writes (trace w) = []
  | inr _ =>
      exists before img,
        trace w = before ++ [Imwrite (output_path path) img] /\
        writes (trace w) = [Imwrite (output_path path) img]
  end.
Proof.
  intro H.
  assert (E := main_events
                 (fun e => is_imwrite e = false)
                 (fun e => exists img, e = Imwrite (output_path path) img)
                 path size dist blur binary
                 (fun _ _ => eq_refl) (fun _ => eq_refl)
                 (fun img => ex_intro _ img eq_refl)
                 start w r H).
  destruct r as [e | []].
  - destruct E as (d & -> & F). cbn [start trace app]. now apply writes_none.
  - destruct E as (d & e & -> & F & img & ->). cbn [start trace app].
    exists d, img. split; [reflexivity|].
    now rewrite writes_app, (writes_none d F).
Qed.

(** X19. In binary mode a run of [main] never prints the colour step
    distance, neither for the input nor for the result, and whether it
    ends normally or not. *)
Theorem main_binary_hides_step_distance
  (path : string) (size dist : pyobj) (blur : bool)
  (w : world) (r : Py.result unit) :
  run path size dist blur true start = (w, r) ->
  Forall (fun e => is_step_report e = false) (trace w).
Proof.
  intro H.
  assert (E := main_events
                 (fun e => is_step_report e = false)
                 (fun e => is_step_report e = false)
                 path size dist blur true
                 (fun _ Hb => Hb eq_refl) (fun _ => eq_refl) (fun _ => eq_refl)
                 start w r H).
  destruct r as [e | u].
  - destruct E as (d & -> & F). exact F.
  - destruct E as (d & e & -> & F & Qe). cbn [start trace app].
    apply Forall_app. split; [exact F | now repeat constructor].
Qed.

(** X20. When the file cannot be opened, [main] raises the exception of
    [get_geotiff_data] before anything else happens: nothing is printed,
    nothing is read from the terminal and nothing is written. *)
Theorem main_open_failure
  (path : string) (size dist : pyobj) (blur binary : bool) (w : world) :
  gdal_Open path = None ->
  run path size dist blur binary w =
    (w, inl (Py.Exception "Error opening GeoTIFF file.")).
Proof.
  intro H. unfold main, io_bind, lift, get_geotiff_data. now rewrite H.
Qed.

(** The first part of a run on a file that opens, up to the line
    "Processing...". *)
Lemma main_after_report
  (path : string) (size dist : pyobj) (blur binary : bool)
  (ds : Gdal.Dataset) (w : world) :
  gdal_Open path = Some ds ->
  samples (Gdal.ReadAsArray ds) <> [] ->
  exists (w1 : world) (pw ph : Q),
    consumed w1 = consumed w /\
    writes (trace w1) = writes (trace w) /\
    pw = Qabs (Gdal.gt_1 (Gdal.GetGeoTransform ds)) /\
    ph = Qabs (Gdal.gt_5 (Gdal.GetGeoTransform ds)) /\
    run path size dist blur binary w =
      (' (img, new_pixel_size) <~
         (if truthy size
          then
            sz <~ lift (float float_of_string size) ;;
            img <~ lift (resample interpolate (Gdal.ReadAsArray ds) pw ph sz) ;;
            io_ret (img, PFloat sz)
          else io_ret (Gdal.ReadAsArray ds, size)) ;;
       img <~
         (if blur
          then
            print [PStr "GAUSSIAN BLUR SETTINGS"] ;;>
            kernel_text <~ input stdin "Enter kernel size (odd number): " ;;
            blur_kernel_size <~ lift (int_of_string kernel_text) ;;
            intensity_text <~ input stdin "Enter blur intensity (sigma x): " ;;
            blur_intensity <~ lift (int_of_string intensity_text) ;;
            lift (apply_gaussian_blur GaussianBlur img blur_kernel_size
                                      blur_intensity)
          else io_ret img) ;;
       new_color_step_dist <~ lift (float float_of_string dist) ;;
       ' (img, output_color_step_dist) <~
         lift (normalize_to_uint16 img new_color_step_dist binary) ;;
       print [PStr "Done"] ;;>
       print [PStr "RESULT"] ;;>
       show_info (output_path path) (PInt 16)
                 (if truthy new_pixel_size then new_pixel_size
                  else PFloat (Fin pw))
                 (if truthy new_pixel_size then new_pixel_size
                  else PFloat (Fin ph))
                 (PFloat output_color_step_dist) binary ;;>
       imwrite (output_path path) img) w1.
Proof.
  intros Ho Hne.
  destruct (amin_nonempty _ Hne) as [lo Hlo].
  destruct (amax_nonempty _ Hne) as [hi Hhi].
  unfold main at 1.
  unfold io_bind at 1. unfold lift at 1.
  unfold get_geotiff_data, Gdal.ComputeRasterMinMax.
  rewrite Ho, Hlo, Hhi. cbn [Py.bind Py.ret].
  rewrite truediv_nonzero by apply steps_of_depth_nonzero.
  cbn [Py.bind Py.ret].
  destruct binary.
  - eexists. eexists. eexists.
    split; [|split; [|split; [reflexivity|split; [reflexivity|]]]].
    3: { unfold show_info, print, emit, io_bind, io_ret. cbn [negb].
         cbn [trace consumed]. reflexivity. }
    + reflexivity.
    + cbn [trace]. rewrite <- !app_assoc, writes_app. cbn. apply app_nil_r.
  - eexists. eexists. eexists.
    split; [|split; [|split; [reflexivity|split; [reflexivity|]]]].
    3: { unfold show_info, print, emit, io_bind, io_ret. cbn [negb].
         cbn [trace consumed]. reflexivity. }
    + reflexivity.
    + cbn [trace]. rewrite <- !app_assoc, writes_app. cbn. apply app_nil_r.
Qed.


(** X22. Without a pixel size and without blur, on a file that opens,
    [main] returns: it reads nothing from the terminal and writes one
    file, at the output path, holding the normalisation of the band as
    read, with the rows and columns of the band. *)
Theorem main_plain_run
  (path : string) (size dist : pyobj) (binary : bool)
  (ds : Gdal.Dataset) (target : npfloat) :
  gdal_Open path = Some ds ->
  samples (Gdal.ReadAsArray ds) <> [] ->
  truthy size = false ->
  float float_of_string dist = inr target ->
  exists (w : world) (out : ndarray (option Z)) (step : npfloat),
    run path size dist false binary start = (w, inr tt) /\
    normalize_to_uint16 (Gdal.ReadAsArray ds) target binary = inr (out, step) /\
    writes (trace w) = [Imwrite (output_path path) out] /\
    consumed w = 0%nat /\
    nrows out = nrows (Gdal.ReadAsArray ds) /\
    ncols out = ncols (Gdal.ReadAsArray ds).
Proof.
  intros Ho Hne Ht Hf.
  destruct (main_after_report path size dist false binary ds start Ho Hne)
    as (w1 & pw & ph & Hc & Hw & Epw & Eph & E).
  destruct (amin_nonempty _ Hne) as [lo Hlo].
  destruct (amax_nonempty _ Hne) as [hi Hhi].
  assert (En := normalize_to_uint16_eq _ target binary lo hi Hlo Hhi).
  destruct binary.
  - eexists. eexists. eexists.
    split; [|split; [exact En|]].
    + rewrite E. unfold io_bind at 1. rewrite Ht. unfold io_ret at 1.
      unfold io_bind at 1. unfold io_ret at 1.
      unfold io_bind at 1. unfold lift at 1. rewrite Hf.
      unfold io_bind at 1. unfold lift at 1. rewrite En.
      rewrite Ht.
      unfold show_info, print, imwrite, emit, io_bind, io_ret.
      cbn [negb trace consumed]. reflexivity.
    + cbn [trace consumed amap nrows ncols]. rewrite Hc.
      split; [|repeat split].
      rewrite <- !app_assoc, writes_app, Hw. reflexivity.
  - eexists. eexists. eexists.
    split; [|split; [exact En|]].
    + rewrite E. unfold io_bind at 1. rewrite Ht. unfold io_ret at 1.
      unfold io_bind at 1. unfold io_ret at 1.
      unfold io_bind at 1. unfold lift at 1. rewrite Hf.
      unfold io_bind at 1. unfold lift at 1. rewrite En.
      rewrite Ht.
      unfold show_info, print, imwrite, emit, io_bind, io_ret.
      cbn [negb trace consumed]. reflexivity.
    + cbn [trace consumed amap nrows ncols]. rewrite Hc.
      split; [|repeat split].
      rewrite <- !app_assoc, writes_app, Hw. reflexivity.
Qed.

End Run.

Section RunWitnesses.

Import Np Tiftool Script.

Lemma main_open_failure_witness :
  main Terminal.open_nothing Inputs.nearest Terminal.GaussianBlur
       Terminal.float_of_string Terminal.int_of_string Terminal.stdin
       "dem.tif" (PStr "1") (PInt 0) true false start =
    (start, inl (Py.Exception "Error opening GeoTIFF file.")).
Proof.
  apply (main_open_failure Terminal.open_nothing Inputs.nearest
           Terminal.GaussianBlur Terminal.float_of_string
           Terminal.int_of_string Terminal.stdin
           "dem.tif" (PStr "1") (PInt 0) true false start).
  reflexivity.
Defined.


Lemma main_plain_run_witness :
  exists (w : world) (out : ndarray (option Z)) (step : npfloat),
    main Inputs.open_ramp Inputs.nearest Terminal.GaussianBlur
         Terminal.float_of_string Terminal.int_of_string Terminal.stdin
         "dem.tif" (PInt 0) (PStr "0.5") false false start = (w, inr tt) /\
    normalize_to_uint16 Inputs.ramp (Fin (1 # 2)) false = inr (out, step) /\
    writes (trace w) = [Imwrite (output_path "dem.tif") out] /\
    consumed w = 0%nat /\
    nrows out = 4%nat /\ ncols out = 4%nat.
Proof.
  apply (main_plain_run Inputs.open_ramp Inputs.nearest
           Terminal.GaussianBlur Terminal.float_of_string
           Terminal.int_of_string Terminal.stdin
           "dem.tif" (PInt 0) (PStr "0.5") false Inputs.ramp_dataset (Fin (1 # 2)));
    reflexivity || discriminate.
Defined.

Lemma main_writes_last_or_never_witness :
  exists before img,
    trace (fst (main Inputs.open_ramp Inputs.nearest Terminal.GaussianBlur
                  Terminal.float_of_string Terminal.int_of_string Terminal.stdin
                  "dem.tif" (PInt 0) (PInt 0) false true start)) =
      (before ++ [Imwrite (output_path "dem.tif") img])%list /\
    writes (trace (fst (main Inputs.open_ramp Inputs.nearest Terminal.GaussianBlur
                  Terminal.float_of_string Terminal.int_of_string Terminal.stdin
                  "dem.tif" (PInt 0) (PInt 0) false true start))) =
      [Imwrite (output_path "dem.tif") img].
Proof.
  exact (main_writes_last_or_never Inputs.open_ramp Inputs.nearest
           Terminal.GaussianBlur Terminal.float_of_string
           Terminal.int_of_string Terminal.stdin
           "dem.tif" (PInt 0) (PInt 0) false true _ (inr tt) eq_refl).
Defined.

Lemma main_binary_hides_step_distance_witness :
  Forall (fun e => is_step_report e = false)
    (trace (fst (main Inputs.open_ramp Inputs.nearest Terminal.GaussianBlur
                   Terminal.float_of_string Terminal.int_of_string Terminal.stdin
                   "dem.tif" (PInt 0) (PInt 0) false true start))).
Proof.
  exact (main_binary_hides_step_distance Inputs.open_ramp Inputs.nearest
           Terminal.GaussianBlur Terminal.float_of_string
           Terminal.int_of_string Terminal.stdin
           "dem.tif" (PInt 0) (PInt 0) false _ (inr tt) eq_refl).
Defined.

End RunWitnesses.

(** ** Machine arithmetic: doubles *)

Section Doubles.

Import Np Machine.

Lemma Qrint_nonneg (m : Q) : 0 <= m -> (0 <= Qrint m)%Z.
Proof.
  intro H. unfold Qrint.
  assert (F : (0 <= Qfloor m)%Z).
  { change 0%Z with (Qfloor 0). now apply Qfloor_resp_le. }
  destruct (Qltb _ _); [exact F|].
  destruct (Qltb _ _); [lia|].
  destruct (Z.even _); lia.
Qed.

(** Rounding keeps the sign: the double nearest to a number that is not
    negative is not negative. *)
Lemma round64_nonneg (q r : Q) : 0 <= q -> round64 q = Fin r -> 0 <= r.
Proof.
  intro Hq. unfold round64.
  destruct (Qeq_bool q 0).
  - intro H. injection H as <-. apply Qle_refl.
  - set (p := Z.max (ilog2 (Qabs q) - 52) (-1074)).
    set (n := Qrint (Qabs q / 2 ^ p)).
    destruct (Qle_bool (2 ^ 1024) (inject_Z n * 2 ^ p)).
    + destruct (Qltb q 0); discriminate.
    + assert (E : Qltb q 0 = false) by now apply Qltb_ge.
      rewrite E. intro H. injection H as <-.
      apply Qmult_le_0_compat.
      * change 0 with (inject_Z 0). rewrite <- Zle_Qle.
        apply Qrint_nonneg. unfold Qdiv. apply Qmult_le_0_compat.
        -- apply Qabs_nonneg.
        -- apply Qinv_le_0_compat. apply Qpower_0_le. discriminate.
      * apply Qpower_0_le. discriminate.
Qed.

Lemma double_of_int_nonneg (n : nat) (w : Q) :
  double_of_int (Z.of_nat n) = Fin w -> 0 <= w.
Proof.
  apply round64_nonneg. change 0 with (inject_Z 0). rewrite <- Zle_Qle. lia.
Qed.

Lemma double_mul_nonneg (x y p : Q) :
  0 <= x -> 0 <= y -> double_mul (Fin x) (Fin y) = Fin p -> 0 <= p.
Proof.
  intros Hx Hy. unfold double_mul. cbn [fmul fround].
  apply round64_nonneg. now apply Qmult_le_0_compat.
Qed.

End Doubles.

(** ** Resampler on doubles *)

Section ResamplerDoubles.

Import Np Machine.

Variable interpolate : ndarray Q -> nat -> nat -> list Q.

(** C8, amended.  For every raster and every pair of positive factors
    whose products with the dimensions are finite doubles [px] and [py],
    the raster returned by [resize_image] has exactly floor(px) columns
    and floor(py) rows, where [px] and [py] are the products as the
    machine computes them, rounded to the nearest double before the
    fractional part is dropped; it is returned whenever both numbers are
    positive, and otherwise [cv2.resize] refuses the size. *)
Theorem resize_image_double_dimensions
  (img : ndarray Q) (fx fy w h px py : Q) :
  0 < fx -> 0 < fy ->
  double_of_int (Z.of_nat (ncols img)) = Fin w ->
  double_mul (Fin w) (Fin fx) = Fin px ->
  double_of_int (Z.of_nat (nrows img)) = Fin h ->
  double_mul (Fin h) (Fin fy) = Fin py ->
  ((0 < Qfloor px)%Z /\ (0 < Qfloor py)%Z ->
     exists out,
       Machine.resize_image interpolate img (Fin fx) (Fin fy) = inr out /\
       Z.of_nat (ncols out) = Qfloor px /\
       Z.of_nat (nrows out) = Qfloor py) /\
  (~ ((0 < Qfloor px)%Z /\ (0 < Qfloor py)%Z) ->
     Machine.resize_image interpolate img (Fin fx) (Fin fy) =
       inl (Raised Py.cv2_error)).
Proof.
  intros Hx Hy Ew Epx Eh Epy.
  assert (Hw := double_of_int_nonneg _ _ Ew).
  assert (Hh := double_of_int_nonneg _ _ Eh).
  assert (Hpx := double_mul_nonneg _ _ _ Hw (Qlt_le_weak _ _ Hx) Epx).
  assert (Hpy := double_mul_nonneg _ _ _ Hh (Qlt_le_weak _ _ Hy) Epy).
  unfold Machine.resize_image, scaled_dimension.
  rewrite Ew, Epx, Eh, Epy. cbn [int_of_double Machine.bind].
  rewrite (int_nonneg_floor _ Hpx), (int_nonneg_floor _ Hpy).
  unfold Cv2.resize. split.
  - intros [Hc Hr].
    apply Z.ltb_lt in Hc as Ec. apply Z.ltb_lt in Hr as Er.
    rewrite Ec, Er. cbn [andb Machine.lift Py.ret].
    eexists. split; [reflexivity|].
    cbn [ncols nrows]. split; apply Z2Nat.id; lia.
  - intro Hn.
    destruct (0 <? Qfloor px)%Z eqn:Ec; destruct (0 <? Qfloor py)%Z eqn:Er;
      cbn [andb Machine.lift Py.raise]; try reflexivity.
    exfalso. apply Hn. split; now apply Z.ltb_lt.
Qed.

End ResamplerDoubles.

Section ResamplerDoublesExamples.

Import Np Machine.

Lemma resize_image_double_dimensions_witness :
  exists out,
    Machine.resize_image Inputs.nearest row_of_ten (Fin double_0_7) (Fin 1) =
      inr out /\
    Z.of_nat (ncols out) = 7%Z /\ Z.of_nat (nrows out) = 1%Z.
Proof.
  destruct (resize_image_double_dimensions Inputs.nearest row_of_ten
              double_0_7 1 double_10 double_1 ten_times_0_7 one_times_1)
    as [Hyes _];
    try (vm_compute; reflexivity).
  destruct Hyes as (out & E & Ec & Er); [split; vm_compute; reflexivity|].
  exists out. split; [exact E|]. split.
  - rewrite Ec. vm_compute. reflexivity.
  - rewrite Er. vm_compute. reflexivity.
Defined.

(** C8, as the specification states it, fails: with ten columns and the
    factor 0.7 (the double nearest to it, which is a little less) the
    exact product is below 7 and its floor is 6, while the rounded product
    is 7.0 and the raster returned has 7 columns. *)
Lemma resize_image_rounds_before_truncating :
  round64 (7 # 10) = Fin double_0_7 /\
  0 < double_0_7 /\
  Qfloor (inject_Z (Z.of_nat (ncols row_of_ten)) * double_0_7) = 6%Z /\
  (exists out,
     Machine.resize_image Inputs.nearest row_of_ten (Fin double_0_7) (Fin 1) =
       inr out /\
     Z.of_nat (ncols out) = 7%Z) /\
  ~ (forall (img out : ndarray Q) (fx fy : Q),
       0 < fx -> 0 < fy ->
       Machine.resize_image Inputs.nearest img (Fin fx) (Fin fy) = inr out ->
       Z.of_nat (ncols out) = Qfloor (inject_Z (Z.of_nat (ncols img)) * fx)).
Proof.
  assert (E : Machine.resize_image Inputs.nearest row_of_ten
                (Fin double_0_7) (Fin 1) =
              inr (mk_ndarray 1 7 (Inputs.nearest row_of_ten 1 7)))
    by (vm_compute; reflexivity).
  split; [vm_compute; reflexivity|].
  split; [vm_compute; reflexivity|].
  split; [vm_compute; reflexivity|].
  split.
  - eexists. split; [exact E | reflexivity].
  - intro H. apply H in E; [|vm_compute; reflexivity..].
    vm_compute in E. discriminate.
Qed.

End ResamplerDoublesExamples.

(** ** Normalizer on integer bands *)

Section IntegerBands.

Import Np Machine.

(** C3, at the failing input: on a 16-bit signed band with the extrema
    -20000 and 20000 and the requested step distance 1 in continuous
    mode, the difference of the extrema is taken in 16 bits, where 40000
    wraps to -25536, and the number of steps is -25536, not 40000; every
    value that is cast is then 19999.5. *)
Theorem color_range_int16_wraps :
  Machine.amin int16_band = inr (-20000)%Z /\
  Machine.amax int16_band = inr 20000%Z /\
  wrap int16 (20000 - -20000) = (-25536)%Z /\
  (exists c : Q,
     Machine.color_range int16 (-20000) 20000 (Fin 1) false = Fin c /\
     c == -25536 /\ ~ c == (20000 - -20000) / 1) /\
  (exists v step : Q,
     Machine.normalize_float int16 int16_band (Fin 1) false =
       inr (mk_ndarray 1 3 [Fin v; Fin v; Fin v], Fin step) /\
     v == 39999 # 2) /\
  (exists step : Q,
     Machine.normalize_to_uint16 int16 int16_band (Fin 1) false =
       inr (mk_ndarray 1 3 [Some 19999%Z; Some 19999%Z; Some 19999%Z],
            Fin step)).
Proof.
  split; [vm_compute; reflexivity|]. split; [vm_compute; reflexivity|].
  split; [vm_compute; reflexivity|].
  split; [|split].
  - eexists. split; [vm_compute; reflexivity|].
    split; [vm_compute; reflexivity|]. intro H. vm_compute in H. discriminate.
  - eexists. eexists. split; vm_compute; reflexivity.
  - eexists. vm_compute. reflexivity.
Qed.

(** C5, at the failing input: on a 32-bit signed band with the extrema
    -2000000000 and 2000000000 and no step distance requested, the range
    4000000000 wraps to -294967296 and the step distance returned is the
    double nearest to -294967296/65535, a negative number, not
    4000000000/65535; the same happens on the 16-bit band above, whose
    returned step distance is the double nearest to -25536/65535. *)
Theorem step_distance_signed_band_negative :
  Machine.amin int32_band = inr (-2000000000)%Z /\
  Machine.amax int32_band = inr 2000000000%Z /\
  wrap int32 (2000000000 - -2000000000) = (-294967296)%Z /\
  (exists step : Q,
     Machine.normalize_to_uint16 int32 int32_band (Fin 0) false =
       inr (mk_ndarray 1 3 [Some 0%Z; Some 0%Z; Some 65535%Z], Fin step) /\
     round64 (-294967296 # 65535) = Fin step /\
     step < 0 /\
     ~ step == (2000000000 - -2000000000) / 65535) /\
  (exists step : Q,
     Machine.normalize_to_uint16 int16 int16_band (Fin 0) false =
       inr (mk_ndarray 1 3 [Some 0%Z; Some 0%Z; Some 65535%Z], Fin step) /\
     round64 (-25536 # 65535) = Fin step /\
     step < 0).
Proof.
  split; [vm_compute; reflexivity|]. split; [vm_compute; reflexivity|].
  split; [vm_compute; reflexivity|].
  split.
  - eexists. split; [vm_compute; reflexivity|].
    split; [vm_compute; reflexivity|].
    split; [vm_compute; reflexivity|]. intro H. vm_compute in H. discriminate.
  - eexists. split; [vm_compute; reflexivity|].
    split; vm_compute; reflexivity.
Qed.

End IntegerBands.

(** ** Integer bands: when the range wraps *)

Section IntegerRange.

Import Np Machine.

Lemma dtype_bounds (t : int_dtype) :
  (dtype_max t - dtype_min t = 2 ^ bits t - 1)%Z /\
  (dtype_min t <= 0 <= dtype_max t)%Z /\ (0 < 2 ^ bits t)%Z.
Proof. destruct t; cbn; lia. Qed.

Lemma wrap_in_range (t : int_dtype) (z : Z) :
  (dtype_min t <= z <= dtype_max t)%Z -> wrap t z = z.
Proof.
  intro H. destruct (dtype_bounds t) as (B & _ & _).
  unfold wrap. rewrite Z.mod_small by lia. lia.
Qed.

Lemma wrap_above (t : int_dtype) (z : Z) :
  (dtype_max t < z <= dtype_max t + 2 ^ bits t)%Z ->
  wrap t z = (z - 2 ^ bits t)%Z.
Proof.
  intro H. destruct (dtype_bounds t) as (B & _ & P).
  unfold wrap.
  replace (z - dtype_min t)%Z
    with ((z - 2 ^ bits t - dtype_min t) + 1 * 2 ^ bits t)%Z by lia.
  rewrite Z.mod_add by lia. rewrite Z.mod_small by lia. lia.
Qed.

(** X23. On a band of an integer type, with a requested step distance
    strictly between 0 and 65535 in continuous mode: as long as the range
    max - min is at most the largest value of the type, which is always so
    for an unsigned type, the number of steps is the quotient of the range
    by the request, as a double; when the range is larger, the type is
    signed and the number of steps is the quotient of the range minus
    2^bits, a negative number, by the request. *)
Theorem color_range_integer_band (t : int_dtype) (img_min img_max : Z) (q : Q) :
  (dtype_min t <= img_min)%Z -> (img_min <= img_max)%Z ->
  (img_max <= dtype_max t)%Z ->
  0 < q -> q < 65535 ->
  ((img_max - img_min <= dtype_max t)%Z ->
     Machine.color_range t img_min img_max (Fin q) false =
       double_div (double_of_int (img_max - img_min)) (Fin q)) /\
  ((dtype_max t < img_max - img_min)%Z ->
     signed t = true /\
     (img_max - img_min - 2 ^ bits t < 0)%Z /\
     Machine.color_range t img_min img_max (Fin q) false =
       double_div (double_of_int (img_max - img_min - 2 ^ bits t)) (Fin q)) /\
  (signed t = false -> (img_max - img_min <= dtype_max t)%Z).
Proof.
  intros Hlo Hle Hhi H0 H1.
  destruct (dtype_bounds t) as (B & (Bmin & Bmax) & P).
  assert (G : negb false && flt (Fin 0) (Fin q) && flt (Fin q) (Fin 65535) = true).
  { cbn [negb andb flt]. apply Qltb_lt in H0, H1. now rewrite H0, H1. }
  unfold Machine.color_range. rewrite G.
  split; [|split].
  - intro Hfit. rewrite wrap_in_range by lia. reflexivity.
  - intro Hbig.
    assert (S : signed t = true).
    { destruct (signed t) eqn:E; [reflexivity|].
      exfalso. unfold dtype_min in Hlo. rewrite E in Hlo. lia. }
    split; [exact S|]. split; [lia|].
    rewrite wrap_above by lia. reflexivity.
  - intro U. unfold dtype_min in Hlo. rewrite U in Hlo. lia.
Qed.

Lemma color_range_integer_band_witness :
  ((20000 - -20000 <= dtype_max int16)%Z ->
     Machine.color_range int16 (-20000) 20000 (Fin 1) false =
       double_div (double_of_int (20000 - -20000)) (Fin 1)) /\
  ((dtype_max int16 < 20000 - -20000)%Z ->
     signed int16 = true /\
     (20000 - -20000 - 2 ^ bits int16 < 0)%Z /\
     Machine.color_range int16 (-20000) 20000 (Fin 1) false =
       double_div (double_of_int (20000 - -20000 - 2 ^ bits int16)) (Fin 1)) /\
  (signed int16 = false -> (20000 - -20000 <= dtype_max int16)%Z).
Proof.
  apply (color_range_integer_band int16 (-20000) 20000 1);
    vm_compute; reflexivity || discriminate.
Defined.

End IntegerRange.
